(** * PayAgentHook: per-pool fee governance and swap analytics

    A shallow embedding of [contracts/src/PayAgentHook.sol] (with
    [IFeeStrategy.sol] and the shipped [FixedFeeStrategy]) and the
    properties of its fee resolution, timelock, admin transfer and
    analytics counters.

    Unsigned Solidity integers ([uint24], [uint256], [address], [bytes32])
    are natural numbers in [N]; signed ones ([int256], [int128], [int24])
    are integers in [Z]. Checked arithmetic returns [Panic 0x11] where the
    compiler inserts an overflow check, [unchecked] arithmetic is written
    with its reduction modulo [2^256]. A [mapping] is a finite map read
    with the default value zero. A call either returns with a new state or
    reverts with an error and leaves the state as it was. An external call
    to a fee strategy can see the hook's storage, and the checks the
    compiler puts around it (code at the target, return data that decodes)
    revert in the caller, outside any [catch]. Gas is modelled for the
    stipend of the strategy call only. *)

From Stdlib Require Import ZArith NArith Lia List.
From stdpp Require Import base option gmap strings.
Import ListNotations.

Local Open Scope N_scope.

(** ** Solidity value types *)

Abbreviation address := N.
Abbreviation PoolId := N.
Abbreviation uint24 := N.
Abbreviation uint256 := N.
Abbreviation int256 := Z.
Abbreviation int128 := Z.
Abbreviation int24 := Z.
Abbreviation bytes := (list N).

Module Solidity.

Definition uint24_modulus : N := 2 ^ 24.
Definition uint256_modulus : N := 2 ^ 256.
Definition uint256_max : N := 2 ^ 256 - 1.
Definition uint128_modulus : Z := (2 ^ 128)%Z.
Definition int256_min : Z := (- 2 ^ 255)%Z.
Definition int256_max : Z := (2 ^ 255 - 1)%Z.
Definition int128_min : Z := (- 2 ^ 127)%Z.
Definition int128_max : Z := (2 ^ 127 - 1)%Z.

Definition is_uint24 (n : N) : Prop := n < uint24_modulus.
Definition is_uint256 (n : N) : Prop := n <= uint256_max.
Definition is_int256 (z : Z) : Prop := (int256_min <= z <= int256_max)%Z.
Definition is_int128 (z : Z) : Prop := (int128_min <= z <= int128_max)%Z.

(** [Panic(0x11)]: arithmetic overflow outside an [unchecked] block. *)
Definition PANIC_ARITHMETIC : N := 17.

(** [uint256(x)] for [x : int256]: the two's complement reading. *)
Definition uint256_of_int256 (x : Z) : N :=
  Z.to_N (x mod Z.of_N uint256_modulus).

(** [uint128(x)] for [x : int128]. *)
Definition uint128_of_int128 (x : Z) : N :=
  Z.to_N (x mod uint128_modulus).

(** [uint256(x)] for [x : uint128]: zero extension. *)
Definition uint256_of_uint128 (x : N) : N := x.

(** [a + b] inside [unchecked { }] on [uint256]. *)
Definition unchecked_add (a b : N) : N := (a + b) mod uint256_modulus.

End Solidity.
Import Solidity.

(** ** Errors, events and results *)

Inductive Error :=
| Unauthorized (caller : address)
| FeeTooHigh (fee : uint24)
| FeeChangeTimelocked (poolId : PoolId) (readyBlock : uint256)
| PoolAlreadyRegistered (poolId : PoolId)
| NoPendingAdmin (poolId : PoolId)
| NotPendingAdmin (caller : address)
| ZeroAddress
| NotDynamicFee
| Panic (code : N)
| EmptyRevert.

Inductive Event :=
| PoolRegistered (poolId : PoolId) (admin : address)
| PoolStrategyUpdated (poolId : PoolId) (strategy : address)
| PoolAdminTransferProposed (poolId : PoolId) (currentAdmin proposedAdmin : address)
| PoolAdminTransferred (poolId : PoolId) (previousAdmin newAdmin : address)
| SwapProcessed (poolId : PoolId) (amountIn newSwapCount : uint256)
| VolumeUpdated (poolId : PoolId) (amountIn newTotalVolume : uint256)
| PoolFeeUpdated (poolId : PoolId) (fee : uint24)
| PoolFeeQueued (poolId : PoolId) (fee : uint24) (readyBlock : uint256).

Inductive Result (A : Type) :=
| Ok (a : A)
| Err (e : Error).
Arguments Ok {A} a.
Arguments Err {A} e.

(** ** Collaborator types (Uniswap v4 core) *)

Record PoolKey := mkPoolKey {
  currency0 : address;
  currency1 : address;
  fee : uint24;
  tickSpacing : int24;
  hooks : address
}.

Record SwapParams := mkSwapParams {
  zeroForOne : bool;
  amountSpecified : int256;
  sqrtPriceLimitX96 : N
}.

(** The settlement result of a swap: one signed [int128] amount per asset. *)
Record BalanceDelta := mkBalanceDelta {
  amount0 : int128;
  amount1 : int128
}.

Abbreviation BeforeSwapDelta := Z.
Definition ZERO_DELTA : BeforeSwapDelta := 0%Z.

Inductive Selector :=
| afterInitialize_selector
| beforeSwap_selector
| afterSwap_selector.

(** ** Contract storage *)

Definition MAX_FEE : uint24 := 10000.
Definition DEFAULT_FEE : uint24 := 3000.
Definition TIMELOCK_BLOCKS : uint256 := 150.
Definition STRATEGY_GAS : N := 100000.

Record State := mkState {
  poolAdmin : gmap N N;
  pendingPoolAdmin : gmap N N;
  poolStrategy : gmap N N;
  swapCount : gmap N N;
  totalVolume : gmap N N;
  poolFeeOverride : gmap N N;
  pendingFee : gmap N N;
  feeReadyBlock : gmap N N;
  events : list Event
}.

(** Reading a [mapping]: absent keys hold zero. *)
Definition get (m : gmap N N) (k : N) : N := default 0 (m !! k).

Definition initial_state : State :=
  mkState ∅ ∅ ∅ ∅ ∅ ∅ ∅ ∅ [].

Definition set_poolAdmin (p : PoolId) (v : address) (s : State) : State :=
  mkState (<[p:=v]> (poolAdmin s)) (pendingPoolAdmin s) (poolStrategy s)
          (swapCount s) (totalVolume s) (poolFeeOverride s) (pendingFee s)
          (feeReadyBlock s) (events s).

Definition set_pendingPoolAdmin (p : PoolId) (v : address) (s : State) : State :=
  mkState (poolAdmin s) (<[p:=v]> (pendingPoolAdmin s)) (poolStrategy s)
          (swapCount s) (totalVolume s) (poolFeeOverride s) (pendingFee s)
          (feeReadyBlock s) (events s).

Definition set_poolStrategy (p : PoolId) (v : address) (s : State) : State :=
  mkState (poolAdmin s) (pendingPoolAdmin s) (<[p:=v]> (poolStrategy s))
          (swapCount s) (totalVolume s) (poolFeeOverride s) (pendingFee s)
          (feeReadyBlock s) (events s).

Definition set_swapCount (p : PoolId) (v : uint256) (s : State) : State :=
  mkState (poolAdmin s) (pendingPoolAdmin s) (poolStrategy s)
          (<[p:=v]> (swapCount s)) (totalVolume s) (poolFeeOverride s)
          (pendingFee s) (feeReadyBlock s) (events s).

Definition set_totalVolume (p : PoolId) (v : uint256) (s : State) : State :=
  mkState (poolAdmin s) (pendingPoolAdmin s) (poolStrategy s)
          (swapCount s) (<[p:=v]> (totalVolume s)) (poolFeeOverride s)
          (pendingFee s) (feeReadyBlock s) (events s).

Definition set_poolFeeOverride (p : PoolId) (v : uint24) (s : State) : State :=
  mkState (poolAdmin s) (pendingPoolAdmin s) (poolStrategy s)
          (swapCount s) (totalVolume s) (<[p:=v]> (poolFeeOverride s))
          (pendingFee s) (feeReadyBlock s) (events s).

Definition set_pendingFee (p : PoolId) (v : uint24) (s : State) : State :=
  mkState (poolAdmin s) (pendingPoolAdmin s) (poolStrategy s)
          (swapCount s) (totalVolume s) (poolFeeOverride s)
          (<[p:=v]> (pendingFee s)) (feeReadyBlock s) (events s).

Definition set_feeReadyBlock (p : PoolId) (v : uint256) (s : State) : State :=
  mkState (poolAdmin s) (pendingPoolAdmin s) (poolStrategy s)
          (swapCount s) (totalVolume s) (poolFeeOverride s) (pendingFee s)
          (<[p:=v]> (feeReadyBlock s)) (events s).

Definition log_event (ev : Event) (s : State) : State :=
  mkState (poolAdmin s) (pendingPoolAdmin s) (poolStrategy s)
          (swapCount s) (totalVolume s) (poolFeeOverride s) (pendingFee s)
          (feeReadyBlock s) (events s ++ [ev]).

(** ** The fee strategy capability ([IFeeStrategy]) *)

(** Outcome of the external call [strategy.getFee{gas: g}(poolId, key, params)]
    as the caller sees it. The callee returned at least 32 bytes, of which
    [word] is the first word; returned fewer than 32 bytes; reverted; or
    ran out of the gas it was given; or there is no code at the address,
    so that the call is not made. *)
Inductive CallOutcome :=
| Returned (word : N)
| ReturnedShort
| Reverted
| OutOfGas
| NoCode.

(** The execution context of one call: [msg.sender], [block.number] and the
    behaviour of the accounts at other addresses when their [getFee] is
    called with a gas stipend. [getFee] is a [view] function: it may read
    the hook's storage (its mappings are [public]), which is its first
    argument here, and cannot write it. *)
Record Env := mkEnv {
  msg_sender : address;
  block_number : uint256;
  getFee : State -> address -> N -> PoolId -> PoolKey -> SwapParams ->
           CallOutcome
}.

(** [FixedFeeStrategy]: the shipped strategy, constant in its inputs. *)
Definition FixedFeeStrategy_getFee (fee : uint24)
    (_ : PoolId) (_ : PoolKey) (_ : SwapParams) : CallOutcome :=
  Returned fee.

(** ** The execution monad: storage threaded through, reverts as errors *)

Definition M (A : Type) : Type := State -> Result (A * State).

Definition ret {A} (a : A) : M A := fun s => Ok (a, s).

Definition bind {A B} (m : M A) (k : A -> M B) : M B :=
  fun s => match m s with
           | Ok (a, s') => k a s'
           | Err e => Err e
           end.

Definition revert {A} (e : Error) : M A := fun _ => Err e.

(** A [view] read of the storage. *)
Definition view {A} (f : State -> A) : M A := fun s => Ok (f s, s).

(** A call of one of the contract's own [view] functions, which may
    revert. *)
Definition view_call {A} (f : State -> Result A) : M A :=
  fun s => match f s with
           | Ok a => Ok (a, s)
           | Err e => Err e
           end.

(** A storage write or an [emit]. *)
Definition update (f : State -> State) : M unit := fun s => Ok (tt, f s).

Definition emit (ev : Event) : M unit := update (log_event ev).

Declare Scope hook_scope.
Delimit Scope hook_scope with hook.
Notation "'let*' x ':=' c 'in' k" := (bind c (fun x => k))
  (at level 10, x pattern, c at level 100, k at level 200) : hook_scope.
Notation "c '>>' k" := (bind c (fun _ => k))
  (at level 65, right associativity) : hook_scope.
Local Open Scope hook_scope.

(** Checked [a + b] on [uint256]. *)
Definition checked_add (a b : uint256) : M uint256 :=
  if uint256_max <? a + b then revert (Panic PANIC_ARITHMETIC) else ret (a + b).

(** Checked unary minus on [int256]: [-x] overflows exactly at the minimum. *)
Definition checked_neg (x : int256) : M int256 :=
  if (x =? int256_min)%Z then revert (Panic PANIC_ARITHMETIC) else ret (- x)%Z.

(** ** The contract *)

Section PayAgentHook.

(** [PoolIdLibrary.toId]: the identifier of a pool key (a hash of the key;
    only its value is used here). *)
Variable toId : PoolKey -> PoolId.

(** [LPFeeLibrary.isDynamicFee] on the [fee] field of a pool key. *)
Variable isDynamicFee : uint24 -> bool.

(** [modifier onlyPoolAdmin(PoolId poolId)] *)
Definition onlyPoolAdmin (env : Env) (poolId : PoolId) : M unit :=
  let* admin := view (fun s => get (poolAdmin s) poolId) in
  if negb (msg_sender env =? admin)
  then revert (Unauthorized (msg_sender env))
  else ret tt.

(** The parent hook [BaseOverrideFee._afterInitialize], which this
    contract calls "to validate dynamic fee": it reverts unless the key
    carries the dynamic fee flag. *)
Definition super_afterInitialize (sender : address) (key : PoolKey)
    (sqrtPriceX96 : N) (tick : int24) : M Selector :=
  if negb (isDynamicFee (fee key)) then revert NotDynamicFee
  else ret afterInitialize_selector.

(** [_afterInitialize]: records the sender as pool admin. *)
Definition _afterInitialize (env : Env) (sender : address) (key : PoolKey)
    (sqrtPriceX96 : N) (tick : int24) : M Selector :=
  let* selector := super_afterInitialize sender key sqrtPriceX96 tick in
  let poolId := toId key in
  let* admin := view (fun s => get (poolAdmin s) poolId) in
  if negb (admin =? 0) then revert (PoolAlreadyRegistered poolId)
  else
    update (set_poolAdmin poolId sender) >>
    emit (PoolRegistered poolId sender) >>
    ret selector.

(** [setPoolStrategy] *)
Definition setPoolStrategy (env : Env) (poolId : PoolId) (strategy : address)
    : M unit :=
  onlyPoolAdmin env poolId >>
  update (set_poolStrategy poolId strategy) >>
  emit (PoolStrategyUpdated poolId strategy).

(** [setPoolFee]: queue a fee change. *)
Definition setPoolFee (env : Env) (poolId : PoolId) (fee : uint24) : M unit :=
  onlyPoolAdmin env poolId >>
  if MAX_FEE <? fee then revert (FeeTooHigh fee)
  else
    let* readyBlock := checked_add (block_number env) TIMELOCK_BLOCKS in
    update (set_pendingFee poolId fee) >>
    update (set_feeReadyBlock poolId readyBlock) >>
    emit (PoolFeeQueued poolId fee readyBlock).

(** [finalizePoolFee]: apply a queued fee change once the timelock passed. *)
Definition finalizePoolFee (env : Env) (poolId : PoolId) : M unit :=
  let* ready := view (fun s => get (feeReadyBlock s) poolId) in
  if (ready =? 0) || (block_number env <? ready)
  then revert (FeeChangeTimelocked poolId ready)
  else
    let* newFee := view (fun s => get (pendingFee s) poolId) in
    update (set_poolFeeOverride poolId newFee) >>
    update (set_pendingFee poolId 0) >>
    update (set_feeReadyBlock poolId 0) >>
    emit (PoolFeeUpdated poolId newFee).

(** [transferPoolAdmin]: step 1 of the two-step transfer. *)
Definition transferPoolAdmin (env : Env) (poolId : PoolId) (newAdmin : address)
    : M unit :=
  onlyPoolAdmin env poolId >>
  if newAdmin =? 0 then revert ZeroAddress
  else
    update (set_pendingPoolAdmin poolId newAdmin) >>
    emit (PoolAdminTransferProposed poolId (msg_sender env) newAdmin).

(** [acceptPoolAdmin]: step 2 of the two-step transfer. *)
Definition acceptPoolAdmin (env : Env) (poolId : PoolId) : M unit :=
  let* pending := view (fun s => get (pendingPoolAdmin s) poolId) in
  if pending =? 0 then revert (NoPendingAdmin poolId)
  else if negb (msg_sender env =? pending)
  then revert (NotPendingAdmin (msg_sender env))
  else
    let* previousAdmin := view (fun s => get (poolAdmin s) poolId) in
    update (set_poolAdmin poolId pending) >>
    update (set_pendingPoolAdmin poolId 0) >>
    emit (PoolAdminTransferred poolId previousAdmin pending).

(** The [try strategy.getFee{gas: 100_000}(...) returns (uint24 strategyFee)
    { return ...; } catch {}] statement of [_resolveFee]. [Ok (Some fee)] is
    the value returned from inside the [try] block; [Ok None] is control
    falling out of the empty [catch], which receives a revert or a lack of
    gas in the callee; [Err] is a revert of the statement itself, in the
    caller: the address holds no code, or the return data does not decode
    as a [uint24]. *)
Definition try_strategy (env : Env) (s : State) (strategy : address)
    (poolId : PoolId) (key : PoolKey) (params : SwapParams)
    : Result (option uint24) :=
  match getFee env s strategy STRATEGY_GAS poolId key params with
  | Returned word =>
      if word <? uint24_modulus
      then let strategyFee := word in
           Ok (Some (if MAX_FEE <? strategyFee then MAX_FEE else strategyFee))
      else Err EmptyRevert
  | ReturnedShort => Err EmptyRevert
  | Reverted => Ok None
  | OutOfGas => Ok None
  | NoCode => Err EmptyRevert
  end.

(** [_resolveFee]: strategy, then manual override, then [DEFAULT_FEE]. *)
Definition _resolveFee (env : Env) (s : State) (poolId : PoolId)
    (key : PoolKey) (params : SwapParams) : Result uint24 :=
  let strategy := get (poolStrategy s) poolId in
  match (if negb (strategy =? 0)
         then try_strategy env s strategy poolId key params
         else Ok None) with
  | Err e => Err e
  | Ok (Some answered) => Ok answered
  | Ok None =>
      let overrideFee := get (poolFeeOverride s) poolId in
      if negb (overrideFee =? 0) then Ok overrideFee
      else Ok DEFAULT_FEE
  end.

(** [getEffectiveFee] *)
Definition getEffectiveFee (env : Env) (s : State) (poolId : PoolId)
    (key : PoolKey) (params : SwapParams) : Result uint24 :=
  _resolveFee env s poolId key params.

(** [getPendingFeeInfo] *)
Definition getPendingFeeInfo (env : Env) (s : State) (poolId : PoolId)
    : uint24 * uint256 * bool :=
  let fee := get (pendingFee s) poolId in
  let readyBlock := get (feeReadyBlock s) poolId in
  let isReady := (0 <? readyBlock) && (readyBlock <=? block_number env) in
  (fee, readyBlock, isReady).

(** [_getFee]: the fee hook of [BaseOverrideFee], overridden here. *)
Definition _getFee (env : Env) (s : State) (sender : address) (key : PoolKey)
    (params : SwapParams) (hookData : bytes) : Result uint24 :=
  let poolId := toId key in
  _resolveFee env s poolId key params.

(** Modelled from the spec: the parent hook [BaseOverrideFee._beforeSwap]
    (an imported library, not among the sources). The pre-swap hook
    "returns the resolved fee to apply to this swap": the parent asks
    [_getFee] and hands its answer back with a zero delta. *)
Definition super_beforeSwap (env : Env) (sender : address) (key : PoolKey)
    (params : SwapParams) (hookData : bytes)
    : M (Selector * BeforeSwapDelta * uint24) :=
  let* resolved :=
    view_call (fun s => _getFee env s sender key params hookData) in
  ret (beforeSwap_selector, ZERO_DELTA, resolved).

(** [_beforeSwap]: tracks the swap count. *)
Definition _beforeSwap (env : Env) (sender : address) (key : PoolKey)
    (params : SwapParams) (hookData : bytes)
    : M (Selector * BeforeSwapDelta * uint24) :=
  let* (selector, delta, feeOverride) :=
    super_beforeSwap env sender key params hookData in
  let poolId := toId key in
  let* amountIn :=
    (if (0 <? amountSpecified params)%Z
     then ret (uint256_of_int256 (amountSpecified params))
     else let* negated := checked_neg (amountSpecified params) in
          ret (uint256_of_int256 negated)) in
  let* count := view (fun s => get (swapCount s) poolId) in
  update (set_swapCount poolId (unchecked_add count 1)) >>
  let* newSwapCount := view (fun s => get (swapCount s) poolId) in
  emit (SwapProcessed poolId amountIn newSwapCount) >>
  ret (selector, delta, feeOverride).

(** The [volumeIn] of [_afterSwap]: the positive side of the delta. *)
Definition volumeIn_of (swapDelta : BalanceDelta) : uint256 :=
  if (0 <? amount0 swapDelta)%Z
  then uint256_of_uint128 (uint128_of_int128 (amount0 swapDelta))
  else if (0 <? amount1 swapDelta)%Z
  then uint256_of_uint128 (uint128_of_int128 (amount1 swapDelta))
  else 0.

(** [_afterSwap]: tracks the volume from the settlement delta. *)
Definition _afterSwap (env : Env) (sender : address) (key : PoolKey)
    (params : SwapParams) (swapDelta : BalanceDelta) (hookData : bytes)
    : M (Selector * int128) :=
  let poolId := toId key in
  let volumeIn := volumeIn_of swapDelta in
  let* volume := view (fun s => get (totalVolume s) poolId) in
  update (set_totalVolume poolId (unchecked_add volume volumeIn)) >>
  let* newTotalVolume := view (fun s => get (totalVolume s) poolId) in
  emit (VolumeUpdated poolId volumeIn newTotalVolume) >>
  ret (afterSwap_selector, 0%Z).

(** *** Transactions

    The externally reachable entry points. A transaction that reverts
    leaves the storage (and the event log) as it found them. *)

Inductive Call :=
| AfterInitialize (sender : address) (key : PoolKey) (sqrtPriceX96 : N)
    (tick : int24)
| SetPoolStrategy (poolId : PoolId) (strategy : address)
| SetPoolFee (poolId : PoolId) (fee : uint24)
| FinalizePoolFee (poolId : PoolId)
| TransferPoolAdmin (poolId : PoolId) (newAdmin : address)
| AcceptPoolAdmin (poolId : PoolId)
| BeforeSwap (sender : address) (key : PoolKey) (params : SwapParams)
    (hookData : bytes)
| AfterSwap (sender : address) (key : PoolKey) (params : SwapParams)
    (swapDelta : BalanceDelta) (hookData : bytes).

(** The pool a call operates on. *)
Definition target (c : Call) : PoolId :=
  match c with
  | AfterInitialize _ key _ _ => toId key
  | SetPoolStrategy poolId _ => poolId
  | SetPoolFee poolId _ => poolId
  | FinalizePoolFee poolId => poolId
  | TransferPoolAdmin poolId _ => poolId
  | AcceptPoolAdmin poolId => poolId
  | BeforeSwap _ key _ _ => toId key
  | AfterSwap _ key _ _ _ => toId key
  end.

Definition dispatch (env : Env) (c : Call) : M unit :=
  match c with
  | AfterInitialize sender key sqrtPriceX96 tick =>
      _afterInitialize env sender key sqrtPriceX96 tick >> ret tt
  | SetPoolStrategy poolId strategy => setPoolStrategy env poolId strategy
  | SetPoolFee poolId fee => setPoolFee env poolId fee
  | FinalizePoolFee poolId => finalizePoolFee env poolId
  | TransferPoolAdmin poolId newAdmin => transferPoolAdmin env poolId newAdmin
  | AcceptPoolAdmin poolId => acceptPoolAdmin env poolId
  | BeforeSwap sender key params hookData =>
      _beforeSwap env sender key params hookData >> ret tt
  | AfterSwap sender key params swapDelta hookData =>
      _afterSwap env sender key params swapDelta hookData >> ret tt
  end.

(** One transaction: the new storage, and the error if it reverted. *)
Definition transact (env : Env) (c : Call) (s : State) : State * option Error :=
  match dispatch env c s with
  | Ok (_, s') => (s', None)
  | Err e => (s, Some e)
  end.

(** A sequence of transactions, each in its own context. *)
Fixpoint run (txs : list (Env * Call)) (s : State) : State :=
  match txs with
  | [] => s
  | (env, c) :: rest => run rest (fst (transact env c s))
  end.

(** The storages the contract can be in after deployment. *)
Inductive reachable : State -> Prop :=
| reachable_initial : reachable initial_state
| reachable_transact env c s :
    reachable s -> reachable (fst (transact env c s)).

End PayAgentHook.

Arguments reachable_initial {toId isDynamicFee}.
Arguments reachable_transact {toId isDynamicFee} env c s _.

(** ** The behaviours the specification words describe *)

(** Clamping a value to [[0, MAX_FEE]]. *)
Definition clamp_fee (v : uint24) : uint24 := N.min v MAX_FEE.

(** What the strategy step of the priority chain yields, as specified:
    the strategy's value if one is attached and its invocation answers,
    nothing if it is absent or its invocation fails in any way. *)
Definition strategy_answer (env : Env) (s : State) (poolId : PoolId)
    (key : PoolKey) (params : SwapParams) : option uint24 :=
  let strategy := get (poolStrategy s) poolId in
  if decide (strategy = 0) then None
  else match getFee env s strategy STRATEGY_GAS poolId key params with
       | Returned v => Some v
       | ReturnedShort | Reverted | OutOfGas | NoCode => None
       end.

(** The outcomes of a strategy call that the [try] statement deals with,
    in its [try] block or in its [catch] clause: a word that is a [uint24],
    a revert of the callee, a lack of gas in the callee. *)
Definition call_completes (outcome : CallOutcome) : bool :=
  match outcome with
  | Returned word => word <? uint24_modulus
  | Reverted | OutOfGas => true
  | ReturnedShort | NoCode => false
  end.

(** The priority chain of the effective fee, as specified. *)
Definition effectiveFee_spec (answer : option uint24) (feeOverride : uint24)
    : uint24 :=
  match answer with
  | Some v => clamp_fee v
  | None => if decide (feeOverride <> 0) then feeOverride else DEFAULT_FEE
  end.

(** Saturating addition on [uint256]: sticks at the maximum. *)
Definition saturating_add (a b : uint256) : uint256 :=
  N.min (a + b) uint256_max.

(** The override and the queued value never exceed [MAX_FEE]. *)
Definition fees_bounded (s : State) : Prop :=
  forall p : PoolId,
    get (poolFeeOverride s) p <= MAX_FEE /\ get (pendingFee s) p <= MAX_FEE.

(** The entry points guarded by [onlyPoolAdmin]. *)
Definition admin_only (c : Call) : bool :=
  match c with
  | SetPoolStrategy _ _ | SetPoolFee _ _ | TransferPoolAdmin _ _ => true
  | _ => false
  end.

(** ** Concrete pools, principals and contexts used in the examples *)

Module Examples.

Definition DYNAMIC_FEE_FLAG : uint24 := 8388608.

Definition isDynamicFee (f : uint24) : bool := f =? DYNAMIC_FEE_FLAG.

(** An identifier function for the examples: distinct currency pairs get
    distinct identifiers. *)
Definition toId (key : PoolKey) : PoolId :=
  currency0 key * 2 ^ 160 + currency1 key.

Definition HOOK_ADDRESS : address := 4288.

Definition testKey : PoolKey := mkPoolKey 1 2 DYNAMIC_FEE_FLAG 60 HOOK_ADDRESS.
Definition otherKey : PoolKey := mkPoolKey 3 4 DYNAMIC_FEE_FLAG 60 HOOK_ADDRESS.

Definition admin : address := 48879.
Definition newAdmin : address := 64206.
Definition nonAdmin : address := 57005.
Definition poolManager : address := 51966.

Definition maliciousStrategy : address := 1001.
Definition revertingStrategy : address := 1002.
Definition fixedStrategy : address := 1003.
Definition countingStrategy : address := 1004.
Definition wideStrategy : address := 1005.
Definition silentContract : address := 1006.

(** The contracts of the test suite: a strategy answering [999999], one
    that always reverts, and a [FixedFeeStrategy] of [500]. Beside them: a
    strategy that charges one unit per swap the pool has seen, reading the
    hook's public [swapCount]; a contract whose [getFee] returns the word
    [2^24], which is no [uint24]; and a contract that accepts every call
    and returns nothing. Every other address, the principals' included,
    holds no code. *)
Definition world (hook : State) (a : address) (gas : N) (p : PoolId)
    (k : PoolKey) (q : SwapParams) : CallOutcome :=
  if a =? maliciousStrategy then Returned 999999
  else if a =? revertingStrategy then Reverted
  else if a =? fixedStrategy then FixedFeeStrategy_getFee 500 p k q
  else if a =? countingStrategy then Returned (get (swapCount hook) p)
  else if a =? wideStrategy then Returned uint24_modulus
  else if a =? silentContract then ReturnedShort
  else NoCode.

Definition at_block (caller : address) (number : uint256) : Env :=
  mkEnv caller number world.

Definition swapOne : SwapParams := mkSwapParams true 1000000000000000000 0.
Definition swapMin : SwapParams := mkSwapParams true int256_min 0.

(** The test pool, registered by [admin]. *)
Definition registered : State :=
  fst (transact toId isDynamicFee (at_block poolManager 1)
         (AfterInitialize admin testKey 79228162514264337593543950336 0)
         initial_state).

Definition testPool : PoolId := toId testKey.

(** The test pool with the strategy that answers [999999] attached. *)
Definition withMalicious : State :=
  fst (transact toId isDynamicFee (at_block admin 2)
         (SetPoolStrategy testPool maliciousStrategy) registered).

(** The test pool with both analytics counters at the largest [uint256]. *)
Definition atMaximum : State :=
  set_totalVolume testPool uint256_max
    (set_swapCount testPool uint256_max registered).

(** A settlement in which one unit of the first asset entered the pool. *)
Definition oneIn : BalanceDelta := mkBalanceDelta 1 (-1).

(** A pool key without the dynamic fee flag (a static fee of 0.30%). *)
Definition staticKey : PoolKey := mkPoolKey 5 6 3000 60 HOOK_ADDRESS.

(** The test pool after its admin attached, as strategy, the address of
    an account that holds no code. *)
Definition withCodelessStrategy : State :=
  fst (transact toId isDynamicFee (at_block admin 2)
         (SetPoolStrategy testPool nonAdmin) registered).

(** The test pool with the strategy whose answer is [2^24] attached. *)
Definition withWideStrategy : State :=
  fst (transact toId isDynamicFee (at_block admin 2)
         (SetPoolStrategy testPool wideStrategy) registered).

End Examples.

(** ** Storage invariants and trace measures *)

(** Every stored number fits its Solidity type, the two fee slots stay
    under [MAX_FEE], and a ready block, when set, is at least
    [TIMELOCK_BLOCKS]. *)
Definition storage_in_range (s : State) : Prop :=
  forall p : PoolId,
    get (poolFeeOverride s) p <= MAX_FEE /\
    get (pendingFee s) p <= MAX_FEE /\
    get (swapCount s) p <= uint256_max /\
    get (totalVolume s) p <= uint256_max /\
    get (feeReadyBlock s) p <= uint256_max /\
    (get (feeReadyBlock s) p = 0 \/
     TIMELOCK_BLOCKS <= get (feeReadyBlock s) p).

(** The pool an event is about (its indexed [poolId]). *)
Definition event_pool (ev : Event) : PoolId :=
  match ev with
  | PoolRegistered poolId _ => poolId
  | PoolStrategyUpdated poolId _ => poolId
  | PoolAdminTransferProposed poolId _ _ => poolId
  | PoolAdminTransferred poolId _ _ => poolId
  | SwapProcessed poolId _ _ => poolId
  | VolumeUpdated poolId _ _ => poolId
  | PoolFeeUpdated poolId _ => poolId
  | PoolFeeQueued poolId _ _ => poolId
  end.

(** A pool nobody has configured: no pending admin, no strategy, no
    override and nothing queued. *)
Definition unconfigured (s : State) (p : PoolId) : Prop :=
  get (pendingPoolAdmin s) p = 0 /\
  get (poolStrategy s) p = 0 /\
  get (poolFeeOverride s) p = 0 /\
  get (pendingFee s) p = 0 /\
  get (feeReadyBlock s) p = 0.

(** What an observer who saw, at block [b0], the override [o0] with the
    queue [(f0, r0)] can find in the storage while fewer than
    [TIMELOCK_BLOCKS] blocks have passed: the same override with the same
    queue or with one that is not ready yet, or the queued fee [f0] as the
    override, with an empty queue or one that is not ready yet. *)
Definition within_forecast (o0 f0 r0 b0 : N) (s : State) (p : PoolId) : Prop :=
  (get (poolFeeOverride s) p = o0 /\ get (pendingFee s) p = f0 /\
   get (feeReadyBlock s) p = r0) \/
  (get (poolFeeOverride s) p = o0 /\
   b0 + TIMELOCK_BLOCKS <= get (feeReadyBlock s) p) \/
  (r0 <> 0 /\ get (poolFeeOverride s) p = f0 /\
   (get (feeReadyBlock s) p = 0 \/
    b0 + TIMELOCK_BLOCKS <= get (feeReadyBlock s) p)).

(** The calls that can move a pool's effective fee. *)
Definition moves_fee (c : Call) : bool :=
  match c with
  | SetPoolStrategy _ _ | FinalizePoolFee _ => true
  | _ => false
  end.

Section Measures.

Variable toId : PoolKey -> PoolId.
Variable isDynamicFee : uint24 -> bool.

(** A pre-swap call on pool [p]. *)
Definition is_swap_on (p : PoolId) (c : Call) : bool :=
  match c with
  | BeforeSwap _ key _ _ => toId key =? p
  | _ => false
  end.

(** Did a transaction go through? *)
Definition went_through (outcome : State * option Error) : bool :=
  match snd outcome with
  | None => true
  | Some _ => false
  end.

(** How many pre-swap calls on pool [p] go through when a list of
    transactions is run from the storage [s]. *)
Fixpoint swaps_through (p : PoolId) (txs : list (Env * Call)) (s : State) : N :=
  match txs with
  | [] => 0
  | (env, c) :: rest =>
      let outcome := transact toId isDynamicFee env c s in
      (if is_swap_on p c && went_through outcome then 1 else 0) +
      swaps_through p rest (fst outcome)
  end.

(** The volume a call brings into pool [p]: that of a post-swap call on
    [p], nothing otherwise. *)
Definition call_volume (p : PoolId) (c : Call) : N :=
  match c with
  | AfterSwap _ key _ swapDelta _ =>
      if toId key =? p then volumeIn_of swapDelta else 0
  | _ => 0
  end.

Fixpoint sum_volume (p : PoolId) (txs : list (Env * Call)) : N :=
  match txs with
  | [] => 0
  | (_, c) :: rest => call_volume p c + sum_volume p rest
  end.

End Measures.

(** ** PayAgentResolver: the off-chain lookup resolver

    The ENS resolver of [contracts/src/PayAgentResolver.sol]. A Solidity
    [string] is a [string] here and [bytes(s)] its list of bytes. ABI
    decoding and encoding, [keccak256] and the signature recovery of the
    ECDSA library are parameters of the contract's model; the packed
    encoding of the signed message is written out byte by byte. *)

Module Resolver.

Inductive ResolverError :=
| OffchainLookup (sender : address) (urls : list string) (callData : bytes)
    (callbackFunction : bytes) (extraData : bytes)
| InvalidSignature
| SignatureExpired
| ErrorString (reason : string)
| ArrayOutOfBounds
| CalldataSliceOutOfBounds
| AbiDecodeFailed
| EcdsaRecoverFailed.

Inductive Outcome (A : Type) :=
| Returns (a : A)
| Reverts (e : ResolverError).
Arguments Returns {A} a.
Arguments Reverts {A} e.

(** [bytes(s)] *)
Definition bytes_of_string (s : string) : bytes :=
  map Ascii.N_of_ascii (String.list_ascii_of_string s).

(** [b[i]] on a byte array: [Panic(0x32)] past the end. *)
Definition byte_at (b : bytes) (i : nat) : Outcome N :=
  match b !! i with
  | Some x => Returns x
  | None => Reverts ArrayOutOfBounds
  end.

Definition PAYAGENT_PREFIX : string := "com.payagent.".

(** The loop of [_isPayAgentKey], entered at index [i] with [remaining]
    iterations to go ([prefix.length - i]). *)
Fixpoint isPayAgentKey_loop (keyBytes prefix : bytes) (i remaining : nat)
    : Outcome bool :=
  match remaining with
  | O => Returns true
  | S remaining' =>
      match byte_at keyBytes i with
      | Reverts e => Reverts e
      | Returns k =>
          match byte_at prefix i with
          | Reverts e => Reverts e
          | Returns q =>
              if negb (k =? q) then Returns false
              else isPayAgentKey_loop keyBytes prefix (S i) remaining'
          end
      end
  end.

(** [_isPayAgentKey]: does the key start with ["com.payagent."]? *)
Definition _isPayAgentKey (key : string) : Outcome bool :=
  let keyBytes := bytes_of_string key in
  let prefix := bytes_of_string PAYAGENT_PREFIX in
  if (length keyBytes <? length prefix)%nat then Returns false
  else isPayAgentKey_loop keyBytes prefix 0 (length prefix).

(** The selector of [text(bytes32,string)], [0x59d1d43c]. *)
Definition TEXT_SELECTOR : bytes := [89; 209; 212; 60].

(** The big-endian image of a number on [width] bytes. *)
Fixpoint be_bytes (width : nat) (n : N) : bytes :=
  match width with
  | O => []
  | S width' => be_bytes width' (n / 256) ++ [n mod 256]
  end.

(** [abi.encodePacked(bytes2(0x1900), address(this), expires,
    keccak256(extraData), keccak256(result))], given the two hashes. *)
Definition packed_message (this : address) (expires : N)
    (extraDataHash resultHash : N) : bytes :=
  [25; 0] ++ be_bytes 20 this ++ be_bytes 8 expires ++
  be_bytes 32 extraDataHash ++ be_bytes 32 resultHash.

(** [abi.encodePacked("\x19Ethereum Signed Message:\n32", messageHash)] *)
Definition eth_signed_message (messageHash : N) : bytes :=
  [25] ++ bytes_of_string "Ethereum Signed Message:" ++ [10] ++
  bytes_of_string "32" ++ be_bytes 32 messageHash.

Section Contract.

(** [address(this)], the immutable [signer] and the stored [gatewayUrl]. *)
Variable this : address.
Variable signer : address.
Variable gatewayUrl : string.

(** [abi.decode(_, (bytes32, string))]; [None] when decoding reverts. *)
Variable abi_decode_text : bytes -> option (N * string).
(** [abi.encode(name, data)] *)
Variable abi_encode : bytes -> bytes -> bytes.
(** [abi.decode(_, (bytes, uint64, bytes))] *)
Variable abi_decode_response : bytes -> option (bytes * N * bytes).
Variable keccak256 : bytes -> N.
(** [ECDSA.recover]; [None] when the library reverts. *)
Variable ecdsa_recover : N -> bytes -> option address.
(** [this.resolveWithProof.selector] *)
Variable resolveWithProof_selector : bytes.

(** [resolve]: answers every supported query with [OffchainLookup]. *)
Definition resolve (name data : bytes) : Outcome bytes :=
  if (length data <? 4)%nat then Reverts CalldataSliceOutOfBounds
  else
    let selector := take 4 data in
    if negb (bool_decide (selector = TEXT_SELECTOR))
    then Reverts (ErrorString "PayAgentResolver: unsupported function")
    else
      match abi_decode_text (drop 4 data) with
      | None => Reverts AbiDecodeFailed
      | Some (_, key) =>
          match _isPayAgentKey key with
          | Reverts e => Reverts e
          | Returns isKey =>
              if negb isKey
              then Reverts (ErrorString "PayAgentResolver: not a payagent key")
              else
                let extraData := abi_encode name data in
                let urls := [gatewayUrl] in
                Reverts (OffchainLookup this urls extraData
                           resolveWithProof_selector extraData)
          end
      end.

(** [resolveWithProof] at [block.timestamp = timestamp]. *)
Definition resolveWithProof (timestamp : N) (response extraData : bytes)
    : Outcome bytes :=
  match abi_decode_response response with
  | None => Reverts AbiDecodeFailed
  | Some (result, expires, sig) =>
      if expires <? timestamp then Reverts SignatureExpired
      else
        let messageHash :=
          keccak256 (packed_message this expires (keccak256 extraData)
                       (keccak256 result)) in
        let ethSignedHash := keccak256 (eth_signed_message messageHash) in
        match ecdsa_recover ethSignedHash sig with
        | None => Reverts EcdsaRecoverFailed
        | Some recovered =>
            if negb (recovered =? signer) then Reverts InvalidSignature
            else Returns result
        end
  end.

End Contract.

End Resolver.

(** ** Further concrete storages and transaction lists *)

Module Scenarios.

Import Examples.

Definition otherPool : PoolId := toId otherKey.

(** [admin] queues 100 at block 100, then 500 at block 200; somebody
    finalizes at block 350. *)
Definition queuedOnce : State :=
  fst (transact toId isDynamicFee (at_block admin 100)
         (SetPoolFee testPool 100) registered).

Definition queuedTwice : State :=
  fst (transact toId isDynamicFee (at_block admin 200)
         (SetPoolFee testPool 500) queuedOnce).

Definition finalized : State :=
  fst (transact toId isDynamicFee (at_block nonAdmin 350)
         (FinalizePoolFee testPool) queuedTwice).

(** [admin] proposes [newAdmin], then [nonAdmin]; or [newAdmin] accepts
    the first proposal. *)
Definition proposedOnce : State :=
  fst (transact toId isDynamicFee (at_block admin 2)
         (TransferPoolAdmin testPool newAdmin) registered).

Definition proposedTwice : State :=
  fst (transact toId isDynamicFee (at_block admin 3)
         (TransferPoolAdmin testPool nonAdmin) proposedOnce).

Definition accepted : State :=
  fst (transact toId isDynamicFee (at_block newAdmin 3)
         (AcceptPoolAdmin testPool) proposedOnce).

(** The test pool with the [FixedFeeStrategy] of 500 attached. *)
Definition withFixed : State :=
  fst (transact toId isDynamicFee (at_block admin 2)
         (SetPoolStrategy testPool fixedStrategy) registered).

(** The test pool with the strategy that counts swaps attached. *)
Definition withCounting : State :=
  fst (transact toId isDynamicFee (at_block admin 2)
         (SetPoolStrategy testPool countingStrategy) registered).

Definition swapBack : SwapParams := mkSwapParams false (-5) 0.
Definition twoIn : BalanceDelta := mkBalanceDelta (-7) 2.

(** A day on the test pool, while the other pool is never registered:
    registration, a stranger trying to configure the other pool, three
    pre-swap calls of which the one for [type(int256).min] reverts, a
    pre-swap call on the other pool, and two settlements. *)
Definition busyDay : list (Env * Call) :=
  [ (at_block poolManager 1,
     AfterInitialize admin testKey 79228162514264337593543950336 0);
    (at_block nonAdmin 2, SetPoolFee otherPool 100);
    (at_block nonAdmin 2, SetPoolStrategy otherPool maliciousStrategy);
    (at_block nonAdmin 2, TransferPoolAdmin otherPool nonAdmin);
    (at_block nonAdmin 2, AcceptPoolAdmin otherPool);
    (at_block nonAdmin 2, FinalizePoolFee otherPool);
    (at_block poolManager 3, BeforeSwap nonAdmin testKey swapOne []);
    (at_block poolManager 3, AfterSwap nonAdmin testKey swapOne oneIn []);
    (at_block poolManager 4, BeforeSwap nonAdmin testKey swapMin []);
    (at_block poolManager 5, BeforeSwap nonAdmin otherKey swapOne []);
    (at_block poolManager 6, BeforeSwap nonAdmin testKey swapBack []);
    (at_block poolManager 6, AfterSwap nonAdmin testKey swapBack twoIn []) ].

(** What can happen to the queue of [queuedOnce] between block 200 and
    block 350: a new fee is queued, and the old one is finalized. *)
Definition withinWindow : list (Env * Call) :=
  [ (at_block nonAdmin 249, FinalizePoolFee testPool);
    (at_block nonAdmin 250, FinalizePoolFee testPool);
    (at_block admin 260, SetPoolFee testPool 500);
    (at_block nonAdmin 349, FinalizePoolFee testPool) ].

End Scenarios.

(** ** Reading the storage after a write *)

Lemma get_insert (m : gmap N N) (k k' v : N) :
  get (<[k:=v]> m) k' = if decide (k = k') then v else get m k'.
Proof. unfold get. rewrite lookup_insert. by case_decide. Qed.

Lemma get_insert_eq (m : gmap N N) (k v : N) : get (<[k:=v]> m) k = v.
Proof. rewrite get_insert. by case_decide. Qed.

Lemma get_insert_ne (m : gmap N N) (k k' v : N) :
  k <> k' -> get (<[k:=v]> m) k' = get m k'.
Proof. intros Hne. rewrite get_insert. by case_decide. Qed.

Lemma get_empty (k : N) : get ∅ k = 0.
Proof. unfold get. by rewrite lookup_empty. Qed.

Lemma unchecked_add_small (a b : N) :
  a + b <= uint256_max -> unchecked_add a b = a + b.
Proof.
  intros Hle. unfold unchecked_add. apply N.mod_small.
  unfold uint256_max, uint256_modulus in *. lia.
Qed.

Lemma unchecked_add_max_1 : unchecked_add uint256_max 1 = 0.
Proof. reflexivity. Qed.

Lemma unchecked_add_bound (a b : N) : unchecked_add a b <= uint256_max.
Proof.
  unfold unchecked_add.
  assert (H : (a + b) mod uint256_modulus < uint256_modulus)
    by (apply N.mod_upper_bound; discriminate).
  unfold uint256_max, uint256_modulus in *. lia.
Qed.

(** For an [int128] that is positive the casts [uint256(uint128(x))] give
    its magnitude. *)
Lemma uint128_of_positive_int128 (x : Z) :
  is_int128 x -> (0 < x)%Z -> uint256_of_uint128 (uint128_of_int128 x) = Z.to_N x.
Proof.
  intros [_ Hhi] Hpos. unfold uint256_of_uint128, uint128_of_int128.
  f_equal. apply Z.mod_small.
  unfold int128_max, uint128_modulus in *. lia.
Qed.

(** ** What each entry point does, case by case *)

Local Ltac step_monad :=
  unfold bind, view, view_call, update, emit, revert, ret, checked_add,
    checked_neg; cbn.

Lemma onlyPoolAdmin_eq (env : Env) (poolId : PoolId) (s : State) :
  onlyPoolAdmin env poolId s =
  if decide (msg_sender env = get (poolAdmin s) poolId)
  then Ok (tt, s) else Err (Unauthorized (msg_sender env)).
Proof.
  unfold onlyPoolAdmin. step_monad.
  destruct (N.eqb_spec (msg_sender env) (get (poolAdmin s) poolId));
    case_decide; done.
Qed.

Lemma setPoolStrategy_eq (env : Env) (poolId : PoolId) (strategy : address)
    (s : State) :
  setPoolStrategy env poolId strategy s =
  if decide (msg_sender env = get (poolAdmin s) poolId)
  then Ok (tt, log_event (PoolStrategyUpdated poolId strategy)
                 (set_poolStrategy poolId strategy s))
  else Err (Unauthorized (msg_sender env)).
Proof.
  unfold setPoolStrategy, bind at 1. rewrite onlyPoolAdmin_eq.
  case_decide; done.
Qed.

Lemma setPoolFee_eq (env : Env) (poolId : PoolId) (fee : uint24) (s : State) :
  setPoolFee env poolId fee s =
  if decide (msg_sender env = get (poolAdmin s) poolId) then
    if decide (MAX_FEE < fee) then Err (FeeTooHigh fee)
    else if decide (uint256_max < block_number env + TIMELOCK_BLOCKS)
    then Err (Panic PANIC_ARITHMETIC)
    else
      let readyBlock := block_number env + TIMELOCK_BLOCKS in
      Ok (tt, log_event (PoolFeeQueued poolId fee readyBlock)
                (set_feeReadyBlock poolId readyBlock
                   (set_pendingFee poolId fee s)))
  else Err (Unauthorized (msg_sender env)).
Proof.
  unfold setPoolFee, bind at 1. rewrite onlyPoolAdmin_eq.
  case_decide; [|done].
  destruct (N.ltb_spec MAX_FEE fee); case_decide; try lia; [done|].
  step_monad.
  destruct (N.ltb_spec uint256_max (block_number env + TIMELOCK_BLOCKS));
    case_decide; try lia; done.
Qed.

Lemma finalizePoolFee_eq (env : Env) (poolId : PoolId) (s : State) :
  finalizePoolFee env poolId s =
  let ready := get (feeReadyBlock s) poolId in
  if decide (ready = 0 \/ block_number env < ready)
  then Err (FeeChangeTimelocked poolId ready)
  else
    let newFee := get (pendingFee s) poolId in
    Ok (tt, log_event (PoolFeeUpdated poolId newFee)
              (set_feeReadyBlock poolId 0
                 (set_pendingFee poolId 0
                    (set_poolFeeOverride poolId newFee s)))).
Proof.
  unfold finalizePoolFee. step_monad.
  destruct (N.eqb_spec (get (feeReadyBlock s) poolId) 0);
    destruct (N.ltb_spec (block_number env) (get (feeReadyBlock s) poolId));
    case_decide; cbn; try done; try (exfalso; lia); tauto.
Qed.

Lemma transferPoolAdmin_eq (env : Env) (poolId : PoolId) (newAdmin : address)
    (s : State) :
  transferPoolAdmin env poolId newAdmin s =
  if decide (msg_sender env = get (poolAdmin s) poolId) then
    if decide (newAdmin = 0) then Err ZeroAddress
    else Ok (tt, log_event
                   (PoolAdminTransferProposed poolId (msg_sender env) newAdmin)
                   (set_pendingPoolAdmin poolId newAdmin s))
  else Err (Unauthorized (msg_sender env)).
Proof.
  unfold transferPoolAdmin, bind at 1. rewrite onlyPoolAdmin_eq.
  case_decide; [|done].
  destruct (N.eqb_spec newAdmin 0); case_decide; done.
Qed.

Lemma acceptPoolAdmin_eq (env : Env) (poolId : PoolId) (s : State) :
  acceptPoolAdmin env poolId s =
  let pending := get (pendingPoolAdmin s) poolId in
  if decide (pending = 0) then Err (NoPendingAdmin poolId)
  else if decide (msg_sender env = pending) then
    Ok (tt, log_event
              (PoolAdminTransferred poolId (get (poolAdmin s) poolId) pending)
              (set_pendingPoolAdmin poolId 0 (set_poolAdmin poolId pending s)))
  else Err (NotPendingAdmin (msg_sender env)).
Proof.
  unfold acceptPoolAdmin. step_monad.
  destruct (N.eqb_spec (get (pendingPoolAdmin s) poolId) 0);
    case_decide; try done.
  destruct (N.eqb_spec (msg_sender env) (get (pendingPoolAdmin s) poolId));
    case_decide; done.
Qed.

Section Properties.

Variable toId : PoolKey -> PoolId.
Variable isDynamicFee : uint24 -> bool.

Lemma afterInitialize_eq (env : Env) (sender : address) (key : PoolKey)
    (sqrtPriceX96 : N) (tick : int24) (s : State) :
  _afterInitialize toId isDynamicFee env sender key sqrtPriceX96 tick s =
  if isDynamicFee (fee key) then
    if decide (get (poolAdmin s) (toId key) = 0)
    then Ok (afterInitialize_selector,
             log_event (PoolRegistered (toId key) sender)
               (set_poolAdmin (toId key) sender s))
    else Err (PoolAlreadyRegistered (toId key))
  else Err NotDynamicFee.
Proof.
  unfold _afterInitialize, super_afterInitialize. step_monad.
  destruct (isDynamicFee (fee key)); cbn; [|done].
  destruct (N.eqb_spec (get (poolAdmin s) (toId key)) 0); case_decide; done.
Qed.

(** [_beforeSwap] first resolves the fee, which may revert, then computes
    the amount it logs, [|amountSpecified|], which panics at the least
    [int256], then counts the swap. *)
Lemma beforeSwap_eq (env : Env) (sender : address) (key : PoolKey)
    (params : SwapParams) (hookData : bytes) (s : State) :
  _beforeSwap toId env sender key params hookData s =
  let poolId := toId key in
  let newSwapCount := unchecked_add (get (swapCount s) poolId) 1 in
  match _resolveFee env s poolId key params with
  | Err e => Err e
  | Ok resolved =>
      if decide (amountSpecified params = int256_min)
      then Err (Panic PANIC_ARITHMETIC)
      else
        Ok ((beforeSwap_selector, ZERO_DELTA, resolved),
            log_event
              (SwapProcessed poolId
                 (uint256_of_int256 (Z.abs (amountSpecified params)))
                 newSwapCount)
              (set_swapCount poolId newSwapCount s))
  end.
Proof.
  unfold _beforeSwap, super_beforeSwap, _getFee. step_monad.
  destruct (_resolveFee env s (toId key) key params) as [resolved|e];
    [|reflexivity].
  destruct (Z.ltb_spec 0 (amountSpecified params)) as [Hpos|Hneg].
  - case_decide as Hmin; [rewrite Hmin in Hpos; discriminate Hpos|].
    cbn. rewrite get_insert_eq, Z.abs_eq by lia. done.
  - step_monad.
    destruct (Z.eqb_spec (amountSpecified params) int256_min);
      case_decide; try done.
    cbn. rewrite get_insert_eq, Z.abs_neq by lia. done.
Qed.

Lemma afterSwap_eq (env : Env) (sender : address) (key : PoolKey)
    (params : SwapParams) (swapDelta : BalanceDelta) (hookData : bytes)
    (s : State) :
  _afterSwap toId env sender key params swapDelta hookData s =
  let poolId := toId key in
  let volumeIn := volumeIn_of swapDelta in
  let newTotalVolume := unchecked_add (get (totalVolume s) poolId) volumeIn in
  Ok ((afterSwap_selector, 0%Z),
      log_event (VolumeUpdated poolId volumeIn newTotalVolume)
        (set_totalVolume poolId newTotalVolume s)).
Proof.
  unfold _afterSwap. step_monad. rewrite get_insert_eq. done.
Qed.

(** [_resolveFee], outcome by outcome. *)
Lemma resolveFee_eq (env : Env) (s : State) (poolId : PoolId)
    (key : PoolKey) (params : SwapParams) :
  _resolveFee env s poolId key params =
  let strategy := get (poolStrategy s) poolId in
  let feeOverride := get (poolFeeOverride s) poolId in
  let fallback :=
    if decide (feeOverride <> 0) then feeOverride else DEFAULT_FEE in
  if decide (strategy = 0) then Ok fallback
  else match getFee env s strategy STRATEGY_GAS poolId key params with
       | Returned word =>
           if decide (word < uint24_modulus) then Ok (N.min word MAX_FEE)
           else Err EmptyRevert
       | Reverted | OutOfGas => Ok fallback
       | ReturnedShort | NoCode => Err EmptyRevert
       end.
Proof.
  unfold _resolveFee, try_strategy. cbn zeta.
  assert (Hfallback :
            (if negb (get (poolFeeOverride s) poolId =? 0)
             then Ok (get (poolFeeOverride s) poolId)
             else Ok DEFAULT_FEE) =
            Ok (if decide (get (poolFeeOverride s) poolId <> 0)
                then get (poolFeeOverride s) poolId else DEFAULT_FEE)).
  { destruct (N.eqb_spec (get (poolFeeOverride s) poolId) 0);
      case_decide; done. }
  destruct (N.eqb_spec (get (poolStrategy s) poolId) 0) as [Hz|Hnz];
    destruct (decide (get (poolStrategy s) poolId = 0));
    try contradiction; cbn.
  - exact Hfallback.
  - destruct (getFee env s _ _ _ _ _) as [word| | | |].
    + destruct (N.ltb_spec word uint24_modulus);
        destruct (decide (word < uint24_modulus)); try lia;
        [|reflexivity].
      do 2 f_equal. destruct (N.ltb_spec MAX_FEE word); lia.
    + reflexivity.
    + exact Hfallback.
    + exact Hfallback.
    + reflexivity.
Qed.

(** Where the [try] statement deals with the strategy call's outcome, or
    no strategy is attached, [_resolveFee] returns what the specified
    priority chain gives; everywhere else it reverts. *)
Lemma resolveFee_spec (env : Env) (s : State) (poolId : PoolId)
    (key : PoolKey) (params : SwapParams) :
  let strategy := get (poolStrategy s) poolId in
  _resolveFee env s poolId key params =
  if decide (strategy = 0 \/
             call_completes
               (getFee env s strategy STRATEGY_GAS poolId key params) = true)
  then Ok (effectiveFee_spec (strategy_answer env s poolId key params)
             (get (poolFeeOverride s) poolId))
  else Err EmptyRevert.
Proof.
  cbn zeta. rewrite resolveFee_eq. cbn zeta.
  unfold strategy_answer, effectiveFee_spec, clamp_fee, call_completes.
  destruct (decide (get (poolStrategy s) poolId = 0)) as [Hz|Hnz].
  - destruct (decide (_ \/ _)) as [Hcase|Hcase]; [reflexivity|].
    exfalso. apply Hcase. left. done.
  - destruct (getFee env s _ _ _ _ _) as [word| | | |].
    + destruct (N.ltb_spec word uint24_modulus);
        destruct (decide (word < uint24_modulus)); try lia;
        destruct (decide (_ \/ _)) as [Hcase|Hcase]; try reflexivity.
      * exfalso. apply Hcase. right. reflexivity.
      * destruct Hcase; [contradiction|discriminate].
    + destruct (decide (_ \/ _)) as [Hcase|Hcase]; [|reflexivity].
      destruct Hcase; [contradiction|discriminate].
    + destruct (decide (_ \/ _)) as [Hcase|Hcase]; [reflexivity|].
      exfalso. apply Hcase. right. reflexivity.
    + destruct (decide (_ \/ _)) as [Hcase|Hcase]; [reflexivity|].
      exfalso. apply Hcase. right. reflexivity.
    + destruct (decide (_ \/ _)) as [Hcase|Hcase]; [|reflexivity].
      destruct Hcase; [contradiction|discriminate].
Qed.

Lemma then_ret_tt {A} (m : M A) (s : State) :
  (m >> ret tt) s =
  match m s with Ok (_, s') => Ok (tt, s') | Err e => Err e end.
Proof. unfold bind. destruct (m s) as [[a s']|e]; reflexivity. Qed.

Local Ltac unfold_transact c :=
  destruct c; unfold transact, dispatch;
  rewrite ?then_ret_tt;
  rewrite ?afterInitialize_eq, ?setPoolStrategy_eq, ?setPoolFee_eq,
    ?finalizePoolFee_eq, ?transferPoolAdmin_eq, ?acceptPoolAdmin_eq,
    ?beforeSwap_eq, ?afterSwap_eq;
  cbn zeta;
  repeat match goal with
         | |- context [isDynamicFee ?f] => destruct (isDynamicFee f)
         | |- context [_resolveFee ?e ?s ?p ?k ?q] =>
             destruct (_resolveFee e s p k q)
         | |- context [decide ?P] => destruct (decide P)
         end;
  cbn.

Lemma fees_bounded_initial : fees_bounded initial_state.
Proof. intros p. cbn. rewrite get_empty. unfold MAX_FEE. lia. Qed.

Lemma fees_bounded_transact (env : Env) (c : Call) (s : State) :
  fees_bounded s ->
  fees_bounded (fst (transact toId isDynamicFee env c s)).
Proof.
  intros Hinv p. destruct (Hinv p) as [Hover Hpend].
  unfold_transact c; try (split; assumption);
    rewrite ?get_insert; repeat case_decide; subst;
    try (split; first [assumption | lia | apply Hinv]).
Qed.

Lemma reachable_fees_bounded (s : State) :
  reachable toId isDynamicFee s -> fees_bounded s.
Proof.
  induction 1 as [|env c s _ IH].
  - apply fees_bounded_initial.
  - apply fees_bounded_transact, IH.
Qed.

(** A pool that has an admin keeps one. *)
Lemma admin_kept_transact (env : Env) (c : Call) (s : State) (p : PoolId) :
  get (poolAdmin s) p <> 0 ->
  get (poolAdmin (fst (transact toId isDynamicFee env c s))) p <> 0.
Proof.
  intros Hadmin.
  unfold_transact c; try assumption;
    rewrite ?get_insert; repeat case_decide; subst;
    first [assumption | congruence].
Qed.

Lemma admin_kept_run (txs : list (Env * Call)) (s : State) (p : PoolId) :
  get (poolAdmin s) p <> 0 ->
  get (poolAdmin (run toId isDynamicFee txs s)) p <> 0.
Proof.
  revert s. induction txs as [|[env c] rest IH]; intros s Hadmin; cbn.
  - assumption.
  - apply IH, admin_kept_transact, Hadmin.
Qed.

(** *** Fee resolution *)

Lemma effectiveFee_spec_bounded (answer : option uint24) (feeOverride : uint24) :
  feeOverride <= MAX_FEE ->
  effectiveFee_spec answer feeOverride <= MAX_FEE.
Proof.
  intros Hover. unfold effectiveFee_spec, clamp_fee.
  destruct answer as [v|]; [apply N.le_min_r|].
  case_decide; [assumption|]. unfold DEFAULT_FEE, MAX_FEE. lia.
Qed.

(** A fee that [_resolveFee] returns is at most [MAX_FEE] when the
    override is. *)
Lemma resolveFee_bounded (env : Env) (s : State) (poolId : PoolId)
    (key : PoolKey) (params : SwapParams) (f : uint24) :
  get (poolFeeOverride s) poolId <= MAX_FEE ->
  _resolveFee env s poolId key params = Ok f -> f <= MAX_FEE.
Proof.
  intros Hover. rewrite resolveFee_spec. cbn zeta.
  destruct (decide (_ \/ _)); [|discriminate].
  intros [= <-]. apply effectiveFee_spec_bounded, Hover.
Qed.

(** C1 (bounded fee, strategy clamp). In every storage the contract can
    reach, for every pool, every behaviour of the attached strategy and
    every swap, a fee given by [getEffectiveFee] or by the swap-path hook
    [_getFee] lies between 0 and [MAX_FEE] = 10000; a fee is given, within
    that bound, whenever no strategy is attached, the strategy answers a
    [uint24] (whatever its value), reverts or runs out of gas; and whatever
    the storage, an attached strategy answering 999999 makes the effective
    fee exactly [MAX_FEE]. *)
Theorem C1_fee_bounded (s : State) (Hreach : reachable toId isDynamicFee s)
    (env : Env) (poolId : PoolId) (sender : address) (key : PoolKey)
    (params : SwapParams) (hookData : bytes) :
  (forall f, getEffectiveFee env s poolId key params = Ok f ->
             0 <= f <= MAX_FEE) /\
  (forall f, _getFee toId env s sender key params hookData = Ok f ->
             0 <= f <= MAX_FEE) /\
  MAX_FEE = 10000 /\
  (get (poolStrategy s) poolId = 0 \/
   call_completes
     (getFee env s (get (poolStrategy s) poolId) STRATEGY_GAS poolId key
        params) = true ->
   exists f, getEffectiveFee env s poolId key params = Ok f /\
             0 <= f <= MAX_FEE) /\
  (forall s0 : State,
      get (poolStrategy s0) poolId <> 0 ->
      getFee env s0 (get (poolStrategy s0) poolId) STRATEGY_GAS poolId key
        params = Returned 999999 ->
      getEffectiveFee env s0 poolId key params = Ok MAX_FEE).
Proof.
  pose proof (reachable_fees_bounded s Hreach) as Hinv.
  unfold getEffectiveFee, _getFee.
  split; [|split; [|split; [reflexivity|split]]].
  - intros f Hfee. split; [apply N.le_0_l|].
    apply (resolveFee_bounded env s poolId key params); [apply Hinv|exact Hfee].
  - intros f Hfee. split; [apply N.le_0_l|].
    apply (resolveFee_bounded env s (toId key) key params);
      [apply Hinv|exact Hfee].
  - intros Hdealt. rewrite resolveFee_spec. cbn zeta.
    destruct (decide (_ \/ _)); [|contradiction].
    eexists. split; [reflexivity|]. split; [apply N.le_0_l|].
    apply effectiveFee_spec_bounded, Hinv.
  - intros s0 Hattached Hanswer. rewrite resolveFee_eq. cbn zeta.
    destruct (decide (get (poolStrategy s0) poolId = 0)); [contradiction|].
    rewrite Hanswer. reflexivity.
Qed.

(** On the outcomes the [try] statement deals with, [getEffectiveFee] is
    the specified priority chain: the strategy's answer clamped to
    [[0, MAX_FEE]] when a strategy is attached and answers a [uint24];
    otherwise (no strategy, or its call reverted or ran out of gas) the
    fee override when it is not zero, and otherwise [DEFAULT_FEE]. *)
Lemma priority_chain_where_handled (env : Env) (s : State) (poolId : PoolId)
    (key : PoolKey) (params : SwapParams) :
  let strategy := get (poolStrategy s) poolId in
  let feeOverride := get (poolFeeOverride s) poolId in
  let outcome := getFee env s strategy STRATEGY_GAS poolId key params in
  (strategy = 0 \/ call_completes outcome = true ->
   getEffectiveFee env s poolId key params =
     Ok (effectiveFee_spec (strategy_answer env s poolId key params)
           feeOverride)) /\
  (forall v, strategy <> 0 -> outcome = Returned v -> is_uint24 v ->
     getEffectiveFee env s poolId key params = Ok (N.min v MAX_FEE)) /\
  (strategy = 0 \/ outcome = Reverted \/ outcome = OutOfGas ->
     getEffectiveFee env s poolId key params =
       Ok (if decide (feeOverride <> 0) then feeOverride else DEFAULT_FEE)) /\
  DEFAULT_FEE = 3000.
Proof.
  cbn zeta. unfold getEffectiveFee, is_uint24.
  split; [|split; [|split; [|reflexivity]]].
  - intros Hdealt. rewrite resolveFee_spec. cbn zeta.
    destruct (decide (_ \/ _)); [reflexivity|contradiction].
  - intros v Hattached Hanswer Hfits. rewrite resolveFee_eq. cbn zeta.
    destruct (decide (get (poolStrategy s) poolId = 0)); [contradiction|].
    rewrite Hanswer.
    destruct (decide (v < uint24_modulus)); [reflexivity|contradiction].
  - intros Hfalls. rewrite resolveFee_eq. cbn zeta.
    destruct (decide (get (poolStrategy s) poolId = 0)) as [Hz|Hnz];
      [reflexivity|].
    destruct Hfalls as [Habsent|[Hfail|Hfail]];
      [contradiction|rewrite Hfail; reflexivity|rewrite Hfail; reflexivity].
Qed.

(** C2 at its failing inputs. With a strategy attached whose address holds
    no code, or whose answer is fewer than 32 bytes or a word that is no
    [uint24], the [try] statement reverts in the caller, outside its
    [catch]: [getEffectiveFee] reverts, where the specified chain falls
    through to the override or the default (a failed invocation), or
    clamps the answer to [MAX_FEE] (an answer of [2^24] or more). *)
Theorem C2_try_reverts_in_caller (env : Env) (s : State) (poolId : PoolId)
    (key : PoolKey) (params : SwapParams) :
  let strategy := get (poolStrategy s) poolId in
  let feeOverride := get (poolFeeOverride s) poolId in
  let outcome := getFee env s strategy STRATEGY_GAS poolId key params in
  let specified :=
    effectiveFee_spec (strategy_answer env s poolId key params) feeOverride in
  (strategy <> 0 -> outcome = NoCode \/ outcome = ReturnedShort ->
   getEffectiveFee env s poolId key params = Err EmptyRevert /\
   specified = (if decide (feeOverride <> 0) then feeOverride
                else DEFAULT_FEE)) /\
  (forall word,
     strategy <> 0 -> outcome = Returned word -> uint24_modulus <= word ->
     getEffectiveFee env s poolId key params = Err EmptyRevert /\
     specified = MAX_FEE) /\
  (strategy <> 0 -> call_completes outcome = false ->
   getEffectiveFee env s poolId key params <> Ok specified).
Proof.
  cbn zeta. unfold getEffectiveFee.
  rewrite resolveFee_eq. cbn zeta.
  unfold strategy_answer, effectiveFee_spec, clamp_fee, call_completes.
  destruct (decide (get (poolStrategy s) poolId = 0)) as [Hz|Hnz].
  { repeat split; intros; contradiction. }
  split; [|split].
  - intros _ [Hout|Hout]; rewrite Hout; split; reflexivity.
  - intros word _ Hout Hwide. rewrite Hout.
    destruct (decide (word < uint24_modulus)); [lia|].
    split; [reflexivity|].
    apply N.min_r. unfold uint24_modulus, MAX_FEE in *. lia.
  - intros _.
    destruct (getFee env s _ _ _ _ _) as [word| | | |];
      try discriminate.
    destruct (N.ltb_spec word uint24_modulus); [discriminate|].
    destruct (decide (word < uint24_modulus)); [lia|discriminate].
Qed.

(** *** Pool independence *)

(** C9 (frame property). Whatever the call (registration, strategy set,
    fee queue or finalize, admin transfer or accept, pre-swap, post-swap),
    its caller and its outcome, every field of every pool other than the
    one the call operates on is left as it was. *)
Theorem C9_pool_independence (env : Env) (c : Call) (s : State)
    (p2 : PoolId) (Hother : p2 <> target toId c) :
  let s' := fst (transact toId isDynamicFee env c s) in
  get (poolAdmin s') p2 = get (poolAdmin s) p2 /\
  get (pendingPoolAdmin s') p2 = get (pendingPoolAdmin s) p2 /\
  get (poolStrategy s') p2 = get (poolStrategy s) p2 /\
  get (poolFeeOverride s') p2 = get (poolFeeOverride s) p2 /\
  get (pendingFee s') p2 = get (pendingFee s) p2 /\
  get (feeReadyBlock s') p2 = get (feeReadyBlock s) p2 /\
  get (swapCount s') p2 = get (swapCount s) p2 /\
  get (totalVolume s') p2 = get (totalVolume s) p2.
Proof.
  cbn zeta. revert Hother.
  unfold_transact c; intros Hother;
    rewrite ?get_insert_ne by congruence; repeat split; reflexivity.
Qed.

(** *** The timelocked fee queue *)

(** C3 (timelock enforcement). When the admin of a pool queues a value
    [v <= MAX_FEE] at block [T], then whoever calls [finalizePoolFee] at a
    block before [T + TIMELOCK_BLOCKS] (= [T + 150]) gets
    [FeeChangeTimelocked] and the storage stays as it was, and whoever
    calls it at a block from [T + 150] on succeeds: the override becomes
    [v], and the queued value and its ready block are reset to 0. With
    nothing queued (ready block 0) [finalizePoolFee] fails with
    [FeeChangeTimelocked] as well. *)
Theorem C3_timelock (env : Env) (s : State) (poolId : PoolId) (v : uint24)
    (Hadmin : msg_sender env = get (poolAdmin s) poolId)
    (Hfee : v <= MAX_FEE)
    (Hblock : is_uint256 (block_number env + TIMELOCK_BLOCKS)) :
  let T := block_number env in
  TIMELOCK_BLOCKS = 150 /\
  exists s1,
    setPoolFee env poolId v s = Ok (tt, s1) /\
    (forall env', block_number env' < T + TIMELOCK_BLOCKS ->
       transact toId isDynamicFee env' (FinalizePoolFee poolId) s1 =
         (s1, Some (FeeChangeTimelocked poolId (T + TIMELOCK_BLOCKS)))) /\
    (forall env', T + TIMELOCK_BLOCKS <= block_number env' ->
       exists s2,
         transact toId isDynamicFee env' (FinalizePoolFee poolId) s1 =
           (s2, None) /\
         get (poolFeeOverride s2) poolId = v /\
         get (pendingFee s2) poolId = 0 /\
         get (feeReadyBlock s2) poolId = 0) /\
    (forall env' s0, get (feeReadyBlock s0) poolId = 0 ->
       transact toId isDynamicFee env' (FinalizePoolFee poolId) s0 =
         (s0, Some (FeeChangeTimelocked poolId 0))).
Proof.
  cbn zeta. split; [reflexivity|]. unfold is_uint256 in Hblock.
  rewrite setPoolFee_eq.
  destruct (decide (msg_sender env = get (poolAdmin s) poolId)); [|done].
  destruct (decide (MAX_FEE < v)); [lia|].
  destruct (decide (uint256_max < block_number env + TIMELOCK_BLOCKS));
    [lia|].
  eexists; split; [reflexivity|].
  assert (Hpos : block_number env + TIMELOCK_BLOCKS <> 0)
    by (unfold TIMELOCK_BLOCKS; lia).
  repeat split.
  - intros env' Hearly. unfold transact, dispatch.
    rewrite finalizePoolFee_eq. cbn. rewrite !get_insert_eq.
    case_decide as Hlocked; [reflexivity|].
    exfalso. apply Hlocked. right. exact Hearly.
  - intros env' Hlate. unfold transact, dispatch.
    rewrite finalizePoolFee_eq. cbn. rewrite !get_insert_eq.
    case_decide as Hlocked; [exfalso; lia|].
    eexists; split; [reflexivity|]. cbn. rewrite !get_insert_eq. done.
  - intros env' s0 Hnone. unfold transact, dispatch.
    rewrite finalizePoolFee_eq. cbn zeta. rewrite Hnone.
    case_decide as Hlocked; [reflexivity|].
    exfalso. apply Hlocked. left. reflexivity.
Qed.

(** C10 (queueing zero cancels the override). The admin may queue the
    value 0; finalizing it once the timelock has passed sets the override
    to 0, and from then on, with no strategy attached, the effective fee
    is [DEFAULT_FEE]. *)
Theorem C10_queue_zero_cancels (env : Env) (s : State) (poolId : PoolId)
    (Hadmin : msg_sender env = get (poolAdmin s) poolId)
    (Hblock : is_uint256 (block_number env + TIMELOCK_BLOCKS)) :
  exists s1,
    transact toId isDynamicFee env (SetPoolFee poolId 0) s = (s1, None) /\
    forall env', block_number env + TIMELOCK_BLOCKS <= block_number env' ->
      exists s2,
        transact toId isDynamicFee env' (FinalizePoolFee poolId) s1 =
          (s2, None) /\
        get (poolFeeOverride s2) poolId = 0 /\
        forall env'' key params,
          get (poolStrategy s) poolId = 0 ->
          getEffectiveFee env'' s2 poolId key params = Ok DEFAULT_FEE.
Proof.
  unfold is_uint256 in Hblock. unfold transact at 1, dispatch.
  rewrite setPoolFee_eq.
  destruct (decide (msg_sender env = get (poolAdmin s) poolId)); [|done].
  destruct (decide (MAX_FEE < 0)); [lia|].
  destruct (decide (uint256_max < block_number env + TIMELOCK_BLOCKS));
    [lia|].
  eexists; split; [reflexivity|].
  intros env' Hlate. unfold transact, dispatch.
  rewrite finalizePoolFee_eq. cbn. rewrite !get_insert_eq.
  case_decide as Hlocked; [exfalso; unfold TIMELOCK_BLOCKS in *; lia|].
  eexists; split; [reflexivity|]. cbn. rewrite !get_insert_eq.
  split; [reflexivity|].
  intros env'' key params Hnostrategy.
  unfold getEffectiveFee. rewrite resolveFee_eq. cbn.
  rewrite get_insert_eq.
  destruct (decide (get (poolStrategy s) poolId = 0)); [|contradiction].
  destruct (decide (0 <> 0)); [contradiction|reflexivity].
Qed.

(** *** Pool admin: registration and two-step transfer *)

(** C6, as amended (two-step admin transfer). After the admin [A] of a
    pool proposes a non-zero [B], acceptance by anyone other than [B]
    fails with [NotPendingAdmin] and changes nothing; acceptance by [B]
    succeeds, makes [B] the admin and clears the pending admin; and
    afterwards, provided [B] is not [A] itself, every admin-only call by
    [A] on that pool fails with [Unauthorized]. *)
Theorem C6_two_step_transfer (env : Env) (s : State) (poolId : PoolId)
    (B : address)
    (Hadmin : msg_sender env = get (poolAdmin s) poolId)
    (HB : B <> 0) :
  let A := msg_sender env in
  exists s1,
    transact toId isDynamicFee env (TransferPoolAdmin poolId B) s =
      (s1, None) /\
    (forall env', msg_sender env' <> B ->
       transact toId isDynamicFee env' (AcceptPoolAdmin poolId) s1 =
         (s1, Some (NotPendingAdmin (msg_sender env')))) /\
    (forall env', msg_sender env' = B ->
       exists s2,
         transact toId isDynamicFee env' (AcceptPoolAdmin poolId) s1 =
           (s2, None) /\
         get (poolAdmin s2) poolId = B /\
         get (pendingPoolAdmin s2) poolId = 0 /\
         (B <> A ->
          forall envA c,
            msg_sender envA = A -> admin_only c = true ->
            target toId c = poolId ->
            transact toId isDynamicFee envA c s2 =
              (s2, Some (Unauthorized A)))).
Proof.
  cbn zeta. unfold transact at 1, dispatch. rewrite transferPoolAdmin_eq.
  destruct (decide (msg_sender env = get (poolAdmin s) poolId)); [|done].
  destruct (decide (B = 0)); [contradiction|].
  eexists; split; [reflexivity|]. split.
  - intros env' Hnot. unfold transact, dispatch.
    rewrite acceptPoolAdmin_eq. cbn. rewrite !get_insert_eq.
    destruct (decide (B = 0)); [contradiction|].
    destruct (decide (msg_sender env' = B)); [contradiction|reflexivity].
  - intros env' Hisb. unfold transact at 1, dispatch.
    rewrite acceptPoolAdmin_eq. cbn. rewrite !get_insert_eq.
    destruct (decide (B = 0)); [contradiction|].
    destruct (decide (msg_sender env' = B)); [|contradiction].
    eexists; split; [reflexivity|]. cbn. rewrite !get_insert_eq.
    repeat split.
    intros Hdistinct envA c HA Honly Htarget.
    destruct c as [| p strategy | p queued | | p proposed | | |];
      try discriminate Honly; cbn in Htarget; subst p;
      unfold transact, dispatch;
      rewrite ?setPoolStrategy_eq, ?setPoolFee_eq, ?transferPoolAdmin_eq;
      cbn; rewrite !get_insert_eq, HA;
      (destruct (decide (msg_sender env = B)); [congruence|reflexivity]).
Qed.

(** C7, as amended (registration). Registering a pool whose key carries
    the dynamic fee flag, when the pool has no admin, makes the initiator
    its admin; once the pool has an admin, as after a registration by a
    non-zero initiator, registering it again fails with
    [PoolAlreadyRegistered] and leaves the storage as it was, also after
    any sequence of calls in between; a pool that has an admin has one
    after every sequence of calls. With a key that does not carry the
    dynamic fee flag, registration fails with [NotDynamicFee] and sets no
    admin. *)
Theorem C7_registration (env : Env) (initiator : address) (key : PoolKey)
    (sqrtPriceX96 : N) (tick : int24) (s : State) :
  let poolId := toId key in
  let outcome :=
    transact toId isDynamicFee env
      (AfterInitialize initiator key sqrtPriceX96 tick) s in
  (isDynamicFee (fee key) = true -> get (poolAdmin s) poolId = 0 ->
   exists s1,
     outcome = (s1, None) /\
     get (poolAdmin s1) poolId = initiator /\
     (initiator <> 0 ->
      forall txs env2 initiator2 sqrtPriceX96' tick',
        let s2 := run toId isDynamicFee txs s1 in
        transact toId isDynamicFee env2
          (AfterInitialize initiator2 key sqrtPriceX96' tick') s2 =
          (s2, Some (PoolAlreadyRegistered poolId)))) /\
  (isDynamicFee (fee key) = true -> get (poolAdmin s) poolId <> 0 ->
   outcome = (s, Some (PoolAlreadyRegistered poolId))) /\
  (isDynamicFee (fee key) = false ->
   outcome = (s, Some NotDynamicFee)) /\
  (forall p txs,
     get (poolAdmin s) p <> 0 ->
     get (poolAdmin (run toId isDynamicFee txs s)) p <> 0).
Proof.
  cbn zeta.
  assert (Htaken : isDynamicFee (fee key) = true ->
             forall env0 who price t s0,
               get (poolAdmin s0) (toId key) <> 0 ->
               transact toId isDynamicFee env0
                 (AfterInitialize who key price t) s0 =
               (s0, Some (PoolAlreadyRegistered (toId key)))).
  { intros Hdynamic env0 who price t s0 Hhas. unfold transact, dispatch.
    rewrite then_ret_tt, afterInitialize_eq, Hdynamic.
    case_decide; [contradiction|reflexivity]. }
  split; [|split; [|split]].
  - intros Hdynamic Hfree. unfold transact at 1, dispatch.
    rewrite then_ret_tt, afterInitialize_eq, Hdynamic.
    case_decide; [|contradiction].
    eexists; split; [reflexivity|]. cbn. rewrite get_insert_eq.
    split; [reflexivity|].
    intros Hnonzero txs env2 initiator2 price t. cbn zeta.
    apply Htaken; [exact Hdynamic|]. apply admin_kept_run. cbn.
    rewrite get_insert_eq. assumption.
  - intros Hdynamic Hhas. apply Htaken; assumption.
  - intros Hstatic. unfold transact, dispatch.
    rewrite then_ret_tt, afterInitialize_eq, Hstatic. reflexivity.
  - intros p txs. apply admin_kept_run.
Qed.

(** *** Swap analytics *)

(** [_afterSwap] returns on every input. *)
Lemma afterSwap_total (env : Env) (sender : address) (key : PoolKey)
    (params : SwapParams) (swapDelta : BalanceDelta) (hookData : bytes)
    (s : State) :
  exists s', _afterSwap toId env sender key params swapDelta hookData s =
             Ok ((afterSwap_selector, 0%Z), s').
Proof. rewrite afterSwap_eq. eexists. reflexivity. Qed.

(** [_beforeSwap] returns, with the resolved fee, whenever the fee
    resolution returns and [amountSpecified] is not the least [int256]. *)
Lemma beforeSwap_returns (env : Env) (sender : address) (key : PoolKey)
    (params : SwapParams) (hookData : bytes) (s : State) (f : uint24) :
  amountSpecified params <> int256_min ->
  _getFee toId env s sender key params hookData = Ok f ->
  exists s', _beforeSwap toId env sender key params hookData s =
             Ok ((beforeSwap_selector, ZERO_DELTA, f), s').
Proof.
  intros Hnotmin Hfee. unfold _getFee in Hfee.
  rewrite beforeSwap_eq. cbn zeta. rewrite Hfee.
  case_decide; [contradiction|]. eexists. reflexivity.
Qed.

(** C4, as amended (counters wrap). [_beforeSwap], when it returns, has
    set the pool's swap count to the old one plus 1 modulo [2^256], and
    [_afterSwap] sets the total volume to the old one plus [volumeIn]
    modulo [2^256]: the counters are exact below the maximum, never make
    the hook fail, and wrap around past the maximum (a swap count at the
    maximum becomes 0). [_beforeSwap] does return whenever the fee
    resolution does and the amount is not the least [int256]. *)
Theorem C4_counters_wrap (env : Env) (sender : address) (key : PoolKey)
    (params : SwapParams) (swapDelta : BalanceDelta) (hookData : bytes)
    (s : State) :
  let poolId := toId key in
  let count := get (swapCount s) poolId in
  let volume := get (totalVolume s) poolId in
  let volumeIn := volumeIn_of swapDelta in
  (forall r s',
     _beforeSwap toId env sender key params hookData s = Ok (r, s') ->
     get (swapCount s') poolId = (count + 1) mod 2 ^ 256 /\
     (count < uint256_max -> get (swapCount s') poolId = count + 1) /\
     (count = uint256_max -> get (swapCount s') poolId = 0)) /\
  (forall f,
     amountSpecified params <> int256_min ->
     _getFee toId env s sender key params hookData = Ok f ->
     exists r s',
       _beforeSwap toId env sender key params hookData s = Ok (r, s')) /\
  (exists r s',
     _afterSwap toId env sender key params swapDelta hookData s =
       Ok (r, s') /\
     get (totalVolume s') poolId = (volume + volumeIn) mod 2 ^ 256 /\
     (volume + volumeIn <= uint256_max ->
      get (totalVolume s') poolId = volume + volumeIn)).
Proof.
  cbn zeta. split; [|split].
  - intros r s'. rewrite beforeSwap_eq. cbn zeta.
    destruct (_resolveFee env s (toId key) key params); [|discriminate].
    case_decide; [discriminate|]. intros [= <- <-].
    cbn. rewrite get_insert_eq. repeat split.
    + intros Hbelow. apply unchecked_add_small. lia.
    + intros Hmax. rewrite Hmax. reflexivity.
  - intros f Hnotmin Hfee.
    destruct (beforeSwap_returns env sender key params hookData s f
                Hnotmin Hfee) as [s' Hrun].
    do 2 eexists. exact Hrun.
  - rewrite afterSwap_eq. cbn zeta.
    do 2 eexists; split; [reflexivity|]. cbn. rewrite get_insert_eq.
    split; [reflexivity|]. apply unchecked_add_small.
Qed.

(** C5 at its failing input. With [amountSpecified] equal to
    [type(int256).min], [_beforeSwap] reverts whatever the pool, the
    storage and the strategy, and the swap is turned down: once the fee is
    resolved, the checked negation that computes the logged [amountIn]
    overflows with [Panic(0x11)]. *)
Theorem C5_beforeSwap_panics_at_int256_min (env : Env) (sender : address)
    (key : PoolKey) (zeroForOne : bool) (sqrtPriceLimitX96 : N)
    (hookData : bytes) (s : State) :
  let params := mkSwapParams zeroForOne int256_min sqrtPriceLimitX96 in
  (exists e,
     _beforeSwap toId env sender key params hookData s = Err e /\
     transact toId isDynamicFee env (BeforeSwap sender key params hookData) s =
       (s, Some e)) /\
  (forall f,
     _getFee toId env s sender key params hookData = Ok f ->
     _beforeSwap toId env sender key params hookData s =
       Err (Panic PANIC_ARITHMETIC) /\
     transact toId isDynamicFee env (BeforeSwap sender key params hookData) s =
       (s, Some (Panic PANIC_ARITHMETIC))) /\
  (get (poolStrategy s) (toId key) = 0 ->
   _beforeSwap toId env sender key params hookData s =
     Err (Panic PANIC_ARITHMETIC)).
Proof.
  cbn zeta. unfold transact, dispatch, _getFee.
  rewrite then_ret_tt, beforeSwap_eq. cbn zeta.
  split; [|split].
  - destruct (_resolveFee env s (toId key) key _) as [f|e];
      [|exists e; split; reflexivity].
    cbn. case_decide; [|contradiction].
    eexists. split; reflexivity.
  - intros f ->. cbn. case_decide; [split; reflexivity|contradiction].
  - intros Hnone. rewrite resolveFee_eq. cbn zeta.
    destruct (decide (get (poolStrategy s) (toId key) = 0));
      [|contradiction].
    cbn. case_decide; [reflexivity|contradiction].
Qed.

(** C8, as amended (volume of a swap). [_afterSwap] takes as [volumeIn]
    the first asset's amount if it is positive, else the second asset's
    amount if that is positive, else 0, reports it in its
    [VolumeUpdated] event, and sets the total volume to the old one plus
    [volumeIn] modulo [2^256]: an increase by exactly [volumeIn] whenever
    the sum fits in a [uint256]. *)
Theorem C8_volume_in (env : Env) (sender : address) (key : PoolKey)
    (params : SwapParams) (swapDelta : BalanceDelta) (hookData : bytes)
    (s : State)
    (H0 : is_int128 (amount0 swapDelta))
    (H1 : is_int128 (amount1 swapDelta)) :
  let poolId := toId key in
  let volume := get (totalVolume s) poolId in
  exists volumeIn s',
    _afterSwap toId env sender key params swapDelta hookData s =
      Ok ((afterSwap_selector, 0%Z), s') /\
    ((0 < amount0 swapDelta)%Z -> volumeIn = Z.to_N (amount0 swapDelta)) /\
    ((amount0 swapDelta <= 0)%Z -> (0 < amount1 swapDelta)%Z ->
     volumeIn = Z.to_N (amount1 swapDelta)) /\
    ((amount0 swapDelta <= 0)%Z -> (amount1 swapDelta <= 0)%Z ->
     volumeIn = 0) /\
    get (totalVolume s') poolId = (volume + volumeIn) mod 2 ^ 256 /\
    (volume + volumeIn <= uint256_max ->
     get (totalVolume s') poolId = volume + volumeIn) /\
    events s' =
      events s ++
      [VolumeUpdated poolId volumeIn (get (totalVolume s') poolId)].
Proof.
  cbn zeta. rewrite afterSwap_eq. cbn zeta.
  exists (volumeIn_of swapDelta). eexists; split; [reflexivity|].
  cbn. rewrite get_insert_eq. unfold volumeIn_of.
  destruct (Z.ltb_spec 0 (amount0 swapDelta)) as [Hpos0|Hneg0];
    [|destruct (Z.ltb_spec 0 (amount1 swapDelta)) as [Hpos1|Hneg1]];
    rewrite ?uint128_of_positive_int128 by assumption;
    repeat split; intros; try lia; try reflexivity;
    apply unchecked_add_small; assumption.
Qed.

End Properties.

(** ** The theorems at concrete pools *)

Section Concrete.

Import Examples.

Local Ltac by_computation := vm_compute; first [reflexivity | discriminate].

Lemma withMalicious_reachable : reachable toId isDynamicFee withMalicious.
Proof. apply reachable_transact, reachable_transact, reachable_initial. Defined.

(** The strategy of the test suite that answers 999999 is cut to
    [MAX_FEE]. *)
Lemma C1_fee_bounded_witness :
  reachable toId isDynamicFee withMalicious /\
  getEffectiveFee (at_block poolManager 3) withMalicious testPool testKey
    swapOne = Ok MAX_FEE /\
  exists f,
    _getFee toId (at_block poolManager 3) withMalicious poolManager
      testKey swapOne [] = Ok f /\
    0 <= f <= MAX_FEE.
Proof.
  pose proof (C1_fee_bounded toId isDynamicFee withMalicious
                withMalicious_reachable (at_block poolManager 3) testPool
                poolManager testKey swapOne [])
    as (_ & Hswap & _ & _ & Hclamp).
  split; [exact withMalicious_reachable|].
  split; [apply Hclamp; by_computation|].
  exists MAX_FEE. split; [by_computation|].
  apply Hswap. by_computation.
Defined.

(** The admin of the test pool attaches, as strategy, the address of an
    account that holds no code: the fee can no longer be resolved, where
    the specified chain falls back to [DEFAULT_FEE]. *)
Lemma C2_try_reverts_in_caller_witness :
  reachable toId isDynamicFee withCodelessStrategy /\
  get (poolAdmin registered) testPool = admin /\
  get (poolStrategy withCodelessStrategy) testPool <> 0 /\
  getFee (at_block poolManager 3) withCodelessStrategy
    (get (poolStrategy withCodelessStrategy) testPool) STRATEGY_GAS testPool
    testKey swapOne = NoCode /\
  getEffectiveFee (at_block poolManager 3) withCodelessStrategy testPool
    testKey swapOne = Err EmptyRevert /\
  effectiveFee_spec
    (strategy_answer (at_block poolManager 3) withCodelessStrategy testPool
       testKey swapOne)
    (get (poolFeeOverride withCodelessStrategy) testPool) = DEFAULT_FEE.
Proof.
  assert (Hset : get (poolStrategy withCodelessStrategy) testPool <> 0)
    by by_computation.
  assert (Hcall : getFee (at_block poolManager 3) withCodelessStrategy
                    (get (poolStrategy withCodelessStrategy) testPool)
                    STRATEGY_GAS testPool testKey swapOne = NoCode)
    by by_computation.
  split;
    [apply reachable_transact, reachable_transact, reachable_initial|].
  split; [by_computation|].
  repeat (split; [assumption|]).
  destruct (C2_try_reverts_in_caller (at_block poolManager 3)
              withCodelessStrategy testPool testKey swapOne)
    as (Hcodeless & _ & _).
  destruct (Hcodeless Hset (or_introl Hcall)) as [Hreverts Hspecified].
  split; [exact Hreverts|].
  rewrite Hspecified. by_computation.
Defined.

(** With such a strategy attached, or one whose answer is [2^24], every
    swap of the pool is turned down by the pre-swap hook, and the view of
    the effective fee reverts; with the reverting strategy of the test
    suite the fee is [DEFAULT_FEE], with the one that answers 999999 it is
    [MAX_FEE]. *)
Lemma bad_strategy_blocks_swaps :
  transact toId isDynamicFee (at_block poolManager 3)
    (BeforeSwap nonAdmin testKey swapOne []) withCodelessStrategy =
    (withCodelessStrategy, Some EmptyRevert) /\
  transact toId isDynamicFee (at_block poolManager 3)
    (BeforeSwap nonAdmin testKey swapOne []) withWideStrategy =
    (withWideStrategy, Some EmptyRevert) /\
  getEffectiveFee (at_block poolManager 3) withWideStrategy testPool testKey
    swapOne = Err EmptyRevert /\
  getEffectiveFee (at_block poolManager 3)
    (fst (transact toId isDynamicFee (at_block admin 2)
            (SetPoolStrategy testPool silentContract) registered))
    testPool testKey swapOne = Err EmptyRevert /\
  getEffectiveFee (at_block poolManager 3)
    (fst (transact toId isDynamicFee (at_block admin 2)
            (SetPoolStrategy testPool revertingStrategy) registered))
    testPool testKey swapOne = Ok DEFAULT_FEE /\
  snd (transact toId isDynamicFee (at_block poolManager 3)
         (BeforeSwap nonAdmin testKey swapOne []) withMalicious) = None.
Proof. repeat split; by_computation. Qed.

(** The scenario of the test suite: 100 queued at block 100 is locked at
    block 249 and applied at block 250, by a caller who is not the
    admin. *)
Lemma C3_timelock_witness :
  msg_sender (at_block admin 100) = get (poolAdmin registered) testPool /\
  100 <= MAX_FEE /\
  is_uint256 (100 + TIMELOCK_BLOCKS) /\
  exists s1,
    setPoolFee (at_block admin 100) testPool 100 registered = Ok (tt, s1) /\
    transact toId isDynamicFee (at_block nonAdmin 249)
      (FinalizePoolFee testPool) s1 =
      (s1, Some (FeeChangeTimelocked testPool 250)) /\
    exists s2,
      transact toId isDynamicFee (at_block nonAdmin 250)
        (FinalizePoolFee testPool) s1 = (s2, None) /\
      get (poolFeeOverride s2) testPool = 100.
Proof.
  assert (Hadmin : msg_sender (at_block admin 100) =
                   get (poolAdmin registered) testPool) by by_computation.
  assert (Hfee : 100 <= MAX_FEE) by by_computation.
  assert (Hblock : is_uint256 (100 + TIMELOCK_BLOCKS)) by by_computation.
  repeat (split; [assumption|]).
  destruct (C3_timelock toId isDynamicFee (at_block admin 100) registered
              testPool 100 Hadmin Hfee Hblock)
    as (_ & s1 & Hqueued & Hearly & Hlate & _).
  exists s1. split; [exact Hqueued|]. split.
  - apply (Hearly (at_block nonAdmin 249)). by_computation.
  - destruct (Hlate (at_block nonAdmin 250)) as (s2 & Hdone & Hover & _).
    + by_computation.
    + exists s2. split; assumption.
Defined.

(** A swap count at the largest [uint256] does not stay there: the next
    pre-swap hook takes it to 0, where saturation would keep it. *)
Lemma C4_saturation_counterexample :
  get (swapCount atMaximum) testPool = uint256_max /\
  exists r s',
    _beforeSwap toId (at_block poolManager 5) nonAdmin testKey swapOne []
      atMaximum = Ok (r, s') /\
    get (swapCount s') testPool = 0 /\
    get (swapCount s') testPool <>
      saturating_add (get (swapCount atMaximum) testPool) 1.
Proof.
  split; [by_computation|].
  destruct (beforeSwap_returns toId (at_block poolManager 5) nonAdmin testKey
              swapOne [] atMaximum DEFAULT_FEE)
    as [s' Hrun]; [by_computation|by_computation|].
  exists (beforeSwap_selector, ZERO_DELTA, DEFAULT_FEE), s'.
  split; [exact Hrun|].
  rewrite beforeSwap_eq in Hrun. cbn zeta in Hrun.
  replace (_resolveFee (at_block poolManager 5) atMaximum (toId testKey)
             testKey swapOne) with (Ok (A:=uint24) DEFAULT_FEE) in Hrun
    by by_computation.
  destruct (decide (amountSpecified swapOne = int256_min)) as [Hmin|_];
    [discriminate Hmin|].
  injection Hrun as <-. split; by_computation.
Qed.

(** Below the maximum the swap count goes up by one, at the maximum it
    goes to 0. *)
Lemma C4_counters_wrap_witness :
  amountSpecified swapOne <> int256_min /\
  (exists r s',
     _beforeSwap toId (at_block poolManager 5) nonAdmin testKey swapOne []
       registered = Ok (r, s') /\
     get (swapCount s') testPool = 1) /\
  (exists r s',
     _beforeSwap toId (at_block poolManager 5) nonAdmin testKey swapOne []
       atMaximum = Ok (r, s') /\
     get (swapCount s') testPool = 0).
Proof.
  assert (Hnotmin : amountSpecified swapOne <> int256_min) by by_computation.
  split; [exact Hnotmin|]. split.
  - destruct (C4_counters_wrap toId (at_block poolManager 5) nonAdmin
                testKey swapOne oneIn [] registered)
      as (Hpre & Hruns & _).
    destruct (Hruns DEFAULT_FEE Hnotmin ltac:(by_computation))
      as (r & s' & Hrun).
    destruct (Hpre r s' Hrun) as (_ & Hbelow & _).
    exists r, s'. split; [exact Hrun|]. apply Hbelow. by_computation.
  - destruct (C4_counters_wrap toId (at_block poolManager 5) nonAdmin
                testKey swapOne oneIn [] atMaximum)
      as (Hpre & Hruns & _).
    destruct (Hruns DEFAULT_FEE Hnotmin ltac:(by_computation))
      as (r & s' & Hrun).
    destruct (Hpre r s' Hrun) as (_ & _ & Hmax).
    exists r, s'. split; [exact Hrun|]. apply Hmax. by_computation.
Defined.

(** An admin who proposes themself and accepts is still the admin: the
    admin-only [setPoolFee] they call next goes through. *)
Lemma C6_self_transfer_counterexample :
  let s1 := fst (transact toId isDynamicFee (at_block admin 2)
                   (TransferPoolAdmin testPool admin) registered) in
  let s2 := fst (transact toId isDynamicFee (at_block admin 3)
                   (AcceptPoolAdmin testPool) s1) in
  get (poolAdmin registered) testPool = admin /\
  snd (transact toId isDynamicFee (at_block admin 2)
         (TransferPoolAdmin testPool admin) registered) = None /\
  snd (transact toId isDynamicFee (at_block admin 3)
         (AcceptPoolAdmin testPool) s1) = None /\
  get (poolAdmin s2) testPool = admin /\
  get (pendingPoolAdmin s2) testPool = 0 /\
  admin_only (SetPoolFee testPool 100) = true /\
  snd (transact toId isDynamicFee (at_block admin 4)
         (SetPoolFee testPool 100) s2) = None /\
  snd (transact toId isDynamicFee (at_block admin 4)
         (SetPoolFee testPool 100) s2) <> Some (Unauthorized admin).
Proof. cbn zeta. repeat split; by_computation. Qed.

(** The transfer of the test suite: [admin] proposes [newAdmin]; a third
    party cannot accept; [newAdmin] accepts, and [admin] can no longer
    queue a fee. *)
Lemma C6_two_step_transfer_witness :
  msg_sender (at_block admin 2) = get (poolAdmin registered) testPool /\
  newAdmin <> 0 /\
  exists s1,
    transact toId isDynamicFee (at_block admin 2)
      (TransferPoolAdmin testPool newAdmin) registered = (s1, None) /\
    transact toId isDynamicFee (at_block nonAdmin 3)
      (AcceptPoolAdmin testPool) s1 = (s1, Some (NotPendingAdmin nonAdmin)) /\
    exists s2,
      transact toId isDynamicFee (at_block newAdmin 3)
        (AcceptPoolAdmin testPool) s1 = (s2, None) /\
      get (poolAdmin s2) testPool = newAdmin /\
      transact toId isDynamicFee (at_block admin 4)
        (SetPoolFee testPool 100) s2 = (s2, Some (Unauthorized admin)).
Proof.
  assert (Hadmin : msg_sender (at_block admin 2) =
                   get (poolAdmin registered) testPool) by by_computation.
  assert (HB : newAdmin <> 0) by by_computation.
  repeat (split; [assumption|]).
  destruct (C6_two_step_transfer toId isDynamicFee (at_block admin 2)
              registered testPool newAdmin Hadmin HB)
    as (s1 & Hproposed & Hothers & Haccept).
  exists s1. split; [exact Hproposed|]. split.
  - apply (Hothers (at_block nonAdmin 3)). by_computation.
  - destruct (Haccept (at_block newAdmin 3)) as (s2 & Hdone & Hnew & _ & Hold).
    + by_computation.
    + exists s2. split; [exact Hdone|]. split; [exact Hnew|].
      apply (Hold ltac:(by_computation) (at_block admin 4)
               (SetPoolFee testPool 100)); by_computation.
Defined.

(** Registering the test pool makes [admin] its admin, and the pool
    cannot be registered again, here after a swap and by someone else;
    the pool of a key with a static fee is not registered. *)
Lemma C7_registration_witness :
  isDynamicFee (fee testKey) = true /\
  get (poolAdmin initial_state) testPool = 0 /\
  admin <> 0 /\
  isDynamicFee (fee staticKey) = false /\
  (exists s1,
     transact toId isDynamicFee (at_block poolManager 1)
       (AfterInitialize admin testKey 79228162514264337593543950336 0)
       initial_state = (s1, None) /\
     get (poolAdmin s1) testPool = admin /\
     let s2 := run toId isDynamicFee
                 [(at_block poolManager 2, BeforeSwap nonAdmin testKey swapOne [])]
                 s1 in
     transact toId isDynamicFee (at_block poolManager 3)
       (AfterInitialize nonAdmin testKey 79228162514264337593543950336 0) s2 =
       (s2, Some (PoolAlreadyRegistered testPool))) /\
  transact toId isDynamicFee (at_block poolManager 1)
    (AfterInitialize admin staticKey 79228162514264337593543950336 0)
    initial_state = (initial_state, Some NotDynamicFee).
Proof.
  assert (Hdynamic : isDynamicFee (fee testKey) = true) by by_computation.
  assert (Hfree : get (poolAdmin initial_state) testPool = 0)
    by by_computation.
  assert (Hnonzero : admin <> 0) by by_computation.
  assert (Hstatic : isDynamicFee (fee staticKey) = false) by by_computation.
  repeat (split; [assumption|]).
  split.
  - destruct (C7_registration toId isDynamicFee (at_block poolManager 1)
                admin testKey 79228162514264337593543950336 0 initial_state)
      as (Hfirst & _).
    destruct (Hfirst Hdynamic Hfree) as (s1 & Hdone & Hset & Hsecond).
    exists s1. split; [exact Hdone|]. split; [exact Hset|].
    apply (Hsecond Hnonzero).
  - destruct (C7_registration toId isDynamicFee (at_block poolManager 1)
                admin staticKey 79228162514264337593543950336 0
                initial_state)
      as (_ & _ & Hrefused & _).
    apply (Hrefused Hstatic).
Defined.

(** Registration does not always set an admin. For the pool of a key
    with a static fee, which has no admin, the registration fails with
    [NotDynamicFee] and the pool still has no admin, where the initiator
    was to become it. And a registration whose initiator is the zero
    address goes through and leaves the pool without an admin, so that
    the pool is registered a second time, by someone else, who becomes
    its admin. *)
Lemma C7_static_fee_counterexample :
  let registration :=
    transact toId isDynamicFee (at_block poolManager 1)
      (AfterInitialize admin staticKey 79228162514264337593543950336 0)
      initial_state in
  let byNobody :=
    transact toId isDynamicFee (at_block poolManager 1)
      (AfterInitialize 0 testKey 79228162514264337593543950336 0)
      initial_state in
  let again :=
    transact toId isDynamicFee (at_block poolManager 2)
      (AfterInitialize nonAdmin testKey 79228162514264337593543950336 0)
      (fst byNobody) in
  get (poolAdmin initial_state) (toId staticKey) = 0 /\
  snd registration = Some NotDynamicFee /\
  get (poolAdmin (fst registration)) (toId staticKey) = 0 /\
  get (poolAdmin (fst registration)) (toId staticKey) <> admin /\
  snd byNobody = None /\
  get (poolAdmin (fst byNobody)) testPool = 0 /\
  snd again = None /\
  snd again <> Some (PoolAlreadyRegistered testPool) /\
  get (poolAdmin (fst again)) testPool = nonAdmin.
Proof. cbn zeta. repeat split; by_computation. Qed.

(** A swap of [type(int256).min] on the freshly registered test pool is
    turned down by the pre-swap hook, while the same swap of one token
    passes with the default fee. *)
Lemma C5_beforeSwap_panics_at_int256_min_witness :
  swapMin = mkSwapParams true int256_min 0 /\
  _getFee toId (at_block poolManager 5) registered nonAdmin testKey swapMin
    [] = Ok DEFAULT_FEE /\
  transact toId isDynamicFee (at_block poolManager 5)
    (BeforeSwap nonAdmin testKey swapMin []) registered =
    (registered, Some (Panic PANIC_ARITHMETIC)).
Proof.
  assert (Hfee : _getFee toId (at_block poolManager 5) registered nonAdmin
                   testKey swapMin [] = Ok DEFAULT_FEE) by by_computation.
  split; [reflexivity|]. split; [exact Hfee|].
  destruct (C5_beforeSwap_panics_at_int256_min toId isDynamicFee
              (at_block poolManager 5) nonAdmin testKey true 0 [] registered)
    as (_ & Hpanics & _).
  apply (Hpanics DEFAULT_FEE Hfee).
Defined.

Lemma pre_swap_at_int256_min_example :
  snd (transact toId isDynamicFee (at_block poolManager 5)
         (BeforeSwap nonAdmin testKey swapMin []) registered) =
    Some (Panic PANIC_ARITHMETIC) /\
  snd (transact toId isDynamicFee (at_block poolManager 5)
         (BeforeSwap nonAdmin testKey swapOne []) registered) = None /\
  exists s',
    _beforeSwap toId (at_block poolManager 5) nonAdmin testKey swapOne []
      registered = Ok ((beforeSwap_selector, ZERO_DELTA, DEFAULT_FEE), s').
Proof.
  split; [by_computation|]. split; [by_computation|].
  apply beforeSwap_returns; by_computation.
Qed.

(** One unit flows into a pool whose total volume is the largest
    [uint256]: the total becomes 0, it has not increased by one. *)
Lemma C8_exact_increase_counterexample :
  get (totalVolume atMaximum) testPool = uint256_max /\
  volumeIn_of oneIn = 1 /\
  exists r s',
    _afterSwap toId (at_block poolManager 5) nonAdmin testKey swapOne oneIn
      [] atMaximum = Ok (r, s') /\
    get (totalVolume s') testPool = 0 /\
    get (totalVolume s') testPool <>
      get (totalVolume atMaximum) testPool + volumeIn_of oneIn.
Proof.
  split; [by_computation|]. split; [by_computation|].
  rewrite afterSwap_eq. cbn zeta.
  do 2 eexists. split; [reflexivity|]. split; by_computation.
Qed.

(** One unit of the first asset enters the freshly registered pool: the
    volume of the swap is 1 and the total goes from 0 to 1. *)
Lemma C8_volume_in_witness :
  is_int128 (amount0 oneIn) /\
  is_int128 (amount1 oneIn) /\
  exists s',
    _afterSwap toId (at_block poolManager 5) nonAdmin testKey swapOne oneIn
      [] registered = Ok ((afterSwap_selector, 0%Z), s') /\
    get (totalVolume s') testPool = 1.
Proof.
  assert (H0 : is_int128 (amount0 oneIn))
    by (split; by_computation).
  assert (H1 : is_int128 (amount1 oneIn))
    by (split; by_computation).
  repeat (split; [assumption|]).
  destruct (C8_volume_in toId (at_block poolManager 5) nonAdmin testKey
              swapOne oneIn [] registered H0 H1)
    as (volumeIn & s' & Hrun & Hfirst & _ & _ & _ & Hexact & _).
  exists s'. split; [exact Hrun|].
  rewrite (Hfirst ltac:(by_computation)) in Hexact.
  unfold testPool. rewrite Hexact; by_computation.
Defined.

(** Queueing a fee on the test pool leaves the other pool's record
    alone. *)
Lemma C9_pool_independence_witness :
  toId otherKey <> target toId (SetPoolFee testPool 100) /\
  let s' := fst (transact toId isDynamicFee (at_block admin 2)
                   (SetPoolFee testPool 100) registered) in
  get (pendingFee s') testPool = 100 /\
  get (pendingFee s') (toId otherKey) =
    get (pendingFee registered) (toId otherKey) /\
  get (feeReadyBlock s') (toId otherKey) =
    get (feeReadyBlock registered) (toId otherKey).
Proof.
  assert (Hother : toId otherKey <> target toId (SetPoolFee testPool 100))
    by by_computation.
  split; [exact Hother|]. cbn zeta.
  destruct (C9_pool_independence toId isDynamicFee (at_block admin 2)
              (SetPoolFee testPool 100) registered (toId otherKey) Hother)
    as (_ & _ & _ & _ & Hpending & Hready & _).
  split; [by_computation|]. split; assumption.
Defined.

(** The scenario of the specification: [admin] queues 100 at block 100;
    the pending information is [(100, 250, false)] until block 250, where
    it is ready; finalizing at block 250 makes the effective fee 100 and
    the pending information [(0, 0, false)]. *)
Lemma queue_and_finalize_scenario :
  let queued := fst (transact toId isDynamicFee (at_block admin 100)
                       (SetPoolFee testPool 100) registered) in
  let final := fst (transact toId isDynamicFee (at_block nonAdmin 250)
                      (FinalizePoolFee testPool) queued) in
  get (poolAdmin registered) testPool = admin /\
  getPendingFeeInfo (at_block nonAdmin 100) queued testPool = (100, 250, false) /\
  getPendingFeeInfo (at_block nonAdmin 249) queued testPool = (100, 250, false) /\
  getPendingFeeInfo (at_block nonAdmin 250) queued testPool = (100, 250, true) /\
  getEffectiveFee (at_block poolManager 250) queued testPool testKey swapOne =
    Ok DEFAULT_FEE /\
  getEffectiveFee (at_block poolManager 251) final testPool testKey swapOne =
    Ok 100 /\
  getPendingFeeInfo (at_block nonAdmin 251) final testPool = (0, 0, false).
Proof. cbn zeta. repeat split; by_computation. Qed.

(** An override of 100 is cancelled by queueing 0 and finalizing it. *)
Lemma C10_queue_zero_cancels_witness :
  let s := set_poolFeeOverride testPool 100 registered in
  msg_sender (at_block admin 100) = get (poolAdmin s) testPool /\
  is_uint256 (100 + TIMELOCK_BLOCKS) /\
  getEffectiveFee (at_block poolManager 99) s testPool testKey swapOne =
    Ok 100 /\
  exists s1 s2,
    transact toId isDynamicFee (at_block admin 100) (SetPoolFee testPool 0) s =
      (s1, None) /\
    transact toId isDynamicFee (at_block nonAdmin 250)
      (FinalizePoolFee testPool) s1 = (s2, None) /\
    getEffectiveFee (at_block poolManager 251) s2 testPool testKey swapOne =
      Ok DEFAULT_FEE.
Proof.
  cbn zeta.
  assert (Hadmin : msg_sender (at_block admin 100) =
                   get (poolAdmin (set_poolFeeOverride testPool 100 registered))
                     testPool) by by_computation.
  assert (Hblock : is_uint256 (100 + TIMELOCK_BLOCKS)) by by_computation.
  repeat (split; [assumption|]). split; [by_computation|].
  destruct (C10_queue_zero_cancels toId isDynamicFee (at_block admin 100)
              (set_poolFeeOverride testPool 100 registered) testPool
              Hadmin Hblock)
    as (s1 & Hqueued & Hfinal).
  destruct (Hfinal (at_block nonAdmin 250)) as (s2 & Hdone & _ & Hdefault).
  - by_computation.
  - exists s1, s2. split; [exact Hqueued|]. split; [exact Hdone|].
    apply Hdefault. by_computation.
Defined.

End Concrete.

(** ** Further properties of the hook *)

Section Further.

Variable toId : PoolKey -> PoolId.
Variable isDynamicFee : uint24 -> bool.

Local Ltac cases_of_transact c :=
  destruct c; unfold transact, dispatch;
  rewrite ?then_ret_tt;
  rewrite ?afterInitialize_eq, ?setPoolStrategy_eq, ?setPoolFee_eq,
    ?finalizePoolFee_eq, ?transferPoolAdmin_eq, ?acceptPoolAdmin_eq,
    ?beforeSwap_eq, ?afterSwap_eq;
  cbn zeta;
  repeat match goal with
         | |- context [isDynamicFee ?f] => destruct (isDynamicFee f)
         | |- context [_resolveFee ?e ?s ?p ?k ?q] =>
             destruct (_resolveFee e s p k q)
         | |- context [decide ?P] => destruct (decide P)
         end;
  cbn.

Lemma storage_in_range_transact (env : Env) (c : Call) (s : State) :
  storage_in_range s ->
  storage_in_range (fst (transact toId isDynamicFee env c s)).
Proof.
  intros Hinv p.
  destruct (Hinv p) as (Hover & Hpend & Hcount & Hvol & Hready & Hlock).
  pose proof unchecked_add_bound as Hwrap.
  cases_of_transact c; try (repeat split; assumption);
    rewrite ?get_insert; repeat case_decide; subst;
    repeat split;
    first [ assumption | apply Hinv | apply Hwrap
          | unfold MAX_FEE, TIMELOCK_BLOCKS in *; lia
          | left; reflexivity
          | right; unfold TIMELOCK_BLOCKS; lia ].
Qed.

(** X1 (storage stays in range). In every storage the contract can reach
    and for every pool: the override and the queued fee are at most
    [MAX_FEE], the two counters and the ready block fit a [uint256], and
    the ready block is either 0 or at least [TIMELOCK_BLOCKS]. *)
Theorem X1_storage_in_range (s : State)
    (Hreach : reachable toId isDynamicFee s) :
  storage_in_range s.
Proof.
  induction Hreach as [|env c s _ IH].
  - intros p. cbn. rewrite !get_empty.
    unfold MAX_FEE, uint256_max. repeat split; lia.
  - apply storage_in_range_transact, IH.
Qed.

(** X2 (queueing a fee). [setPoolFee] goes through exactly when the caller
    is the pool's admin, the fee is at most [MAX_FEE] and the ready block
    [block.number + 150] fits a [uint256]; a caller who is not the admin
    gets [Unauthorized] whatever the fee, and the admin gets [FeeTooHigh]
    above [MAX_FEE]. When it goes through, the fee and the ready block are
    queued and the override in force is untouched. *)
Theorem X2_setPoolFee_outcomes (env : Env) (poolId : PoolId) (fee : uint24)
    (s : State) :
  let outcome := transact toId isDynamicFee env (SetPoolFee poolId fee) s in
  let admin := get (poolAdmin s) poolId in
  (snd outcome = None <->
     msg_sender env = admin /\ fee <= MAX_FEE /\
     is_uint256 (block_number env + TIMELOCK_BLOCKS)) /\
  (msg_sender env <> admin ->
     outcome = (s, Some (Unauthorized (msg_sender env)))) /\
  (msg_sender env = admin -> MAX_FEE < fee ->
     outcome = (s, Some (FeeTooHigh fee))) /\
  (snd outcome = None ->
     get (pendingFee (fst outcome)) poolId = fee /\
     get (feeReadyBlock (fst outcome)) poolId =
       block_number env + TIMELOCK_BLOCKS /\
     get (poolFeeOverride (fst outcome)) poolId =
       get (poolFeeOverride s) poolId).
Proof.
  cbn zeta. unfold transact, dispatch, is_uint256. rewrite setPoolFee_eq.
  destruct (decide (msg_sender env = get (poolAdmin s) poolId));
    [destruct (decide (MAX_FEE < fee));
     [|destruct (decide (uint256_max < block_number env + TIMELOCK_BLOCKS))]|];
    cbn; rewrite ?get_insert_eq;
    repeat split; intros; try discriminate; try lia; try tauto;
    try reflexivity; try contradiction;
    match goal with H : _ /\ _ |- _ => destruct H as (? & ? & ?); lia end.
Qed.

(** X4 (the ready flag tells the truth). For every storage, pool, caller
    and block, [getPendingFeeInfo] reports [isReady] exactly when
    [finalizePoolFee] would go through. *)
Theorem X4_isReady_iff_finalize (env : Env) (s : State) (poolId : PoolId) :
  snd (getPendingFeeInfo env s poolId) = true <->
  snd (transact toId isDynamicFee env (FinalizePoolFee poolId) s) = None.
Proof.
  unfold getPendingFeeInfo, transact, dispatch. rewrite finalizePoolFee_eq.
  cbn.
  destruct (N.ltb_spec 0 (get (feeReadyBlock s) poolId));
    destruct (N.leb_spec (get (feeReadyBlock s) poolId) (block_number env));
    case_decide as Hlocked; cbn; split; intros; try reflexivity;
    try discriminate; exfalso; try lia;
    apply Hlocked; lia.
Qed.

(** X5 (finalizing cannot be replayed). Once [finalizePoolFee] has gone
    through, the queue is empty: the pending information is [(0, 0, false)]
    at every block, and every further [finalizePoolFee], by anyone at any
    block, reverts with [FeeChangeTimelocked] and a ready block of 0. *)
Theorem X5_finalize_once (env : Env) (s s' : State) (poolId : PoolId)
    (Hdone : transact toId isDynamicFee env (FinalizePoolFee poolId) s =
             (s', None)) :
  forall env',
    getPendingFeeInfo env' s' poolId = (0, 0, false) /\
    transact toId isDynamicFee env' (FinalizePoolFee poolId) s' =
      (s', Some (FeeChangeTimelocked poolId 0)).
Proof.
  revert Hdone. unfold transact at 1, dispatch. rewrite finalizePoolFee_eq.
  cbn zeta. case_decide; [discriminate|]. intros [= <-] env'.
  unfold getPendingFeeInfo, transact, dispatch. rewrite finalizePoolFee_eq.
  cbn. rewrite !get_insert_eq. split; [reflexivity|].
  case_decide as Hlocked; [reflexivity|].
  exfalso. apply Hlocked. left. reflexivity.
Qed.

(** X3 (the last queue call wins). Queueing a second fee before the first
    is finalized replaces it and restarts the delay: until 150 blocks
    after the second call [finalizePoolFee] reverts, also when the first
    call's delay has run out, and afterwards it applies the second fee. *)
Theorem X3_requeue_replaces (env1 env2 : Env) (s s1 s2 : State)
    (poolId : PoolId) (v1 v2 : uint24)
    (Hfirst : transact toId isDynamicFee env1 (SetPoolFee poolId v1) s =
              (s1, None))
    (Hsecond : transact toId isDynamicFee env2 (SetPoolFee poolId v2) s1 =
               (s2, None)) :
  let ready := block_number env2 + TIMELOCK_BLOCKS in
  get (pendingFee s2) poolId = v2 /\
  get (feeReadyBlock s2) poolId = ready /\
  (forall env', block_number env' < ready ->
     transact toId isDynamicFee env' (FinalizePoolFee poolId) s2 =
       (s2, Some (FeeChangeTimelocked poolId ready))) /\
  (forall env', ready <= block_number env' ->
     exists s3,
       transact toId isDynamicFee env' (FinalizePoolFee poolId) s2 =
         (s3, None) /\
       get (poolFeeOverride s3) poolId = v2).
Proof.
  cbn zeta. clear Hfirst. revert Hsecond.
  unfold transact at 1, dispatch. rewrite setPoolFee_eq.
  repeat (case_decide; try discriminate). cbn zeta. intros [= <-].
  cbn. rewrite !get_insert_eq. repeat split.
  - intros env' Hearly. unfold transact, dispatch.
    rewrite finalizePoolFee_eq. cbn. rewrite !get_insert_eq.
    case_decide as Hlocked; [reflexivity|].
    exfalso. apply Hlocked. right. exact Hearly.
  - intros env' Hlate. unfold transact, dispatch.
    rewrite finalizePoolFee_eq. cbn. rewrite !get_insert_eq.
    case_decide as Hlocked;
      [exfalso; unfold TIMELOCK_BLOCKS in *; lia|].
    eexists; split; [reflexivity|]. cbn. rewrite !get_insert_eq. done.
Qed.

(** X6 (a strategy takes effect at once). [setPoolStrategy] goes through
    exactly for the pool's admin and is not timelocked: right after it,
    the effective fee is the new strategy's answer, a [uint24], cut to
    [MAX_FEE] whatever the override, a call the [try] statement cannot
    deal with makes the fee resolution revert, and right after removing
    the strategy (address 0) the fee is the override if one is set and
    [DEFAULT_FEE] if not. *)
Theorem X6_strategy_immediate (env : Env) (poolId : PoolId)
    (strategy : address) (s : State) :
  let outcome :=
    transact toId isDynamicFee env (SetPoolStrategy poolId strategy) s in
  let feeOverride := get (poolFeeOverride s) poolId in
  (snd outcome = None <-> msg_sender env = get (poolAdmin s) poolId) /\
  (msg_sender env <> get (poolAdmin s) poolId ->
     outcome = (s, Some (Unauthorized (msg_sender env)))) /\
  (snd outcome = None ->
     get (poolStrategy (fst outcome)) poolId = strategy /\
     (forall env' key params v,
        strategy <> 0 ->
        getFee env' (fst outcome) strategy STRATEGY_GAS poolId key params =
          Returned v ->
        is_uint24 v ->
        getEffectiveFee env' (fst outcome) poolId key params =
          Ok (N.min v MAX_FEE)) /\
     (forall env' key params,
        strategy <> 0 ->
        call_completes
          (getFee env' (fst outcome) strategy STRATEGY_GAS poolId key
             params) = false ->
        getEffectiveFee env' (fst outcome) poolId key params =
          Err EmptyRevert) /\
     (forall env' key params,
        strategy = 0 ->
        getEffectiveFee env' (fst outcome) poolId key params =
          Ok (if decide (feeOverride <> 0) then feeOverride
              else DEFAULT_FEE))).
Proof.
  cbn zeta. unfold transact, dispatch. rewrite setPoolStrategy_eq.
  case_decide as Hadmin; cbn.
  - split; [tauto|]. split; [intros; contradiction|]. intros _.
    rewrite get_insert_eq. split; [reflexivity|].
    split; [|split].
    + intros env' key params v Hattached Hanswer Hword.
      unfold getEffectiveFee. rewrite resolveFee_eq. cbn.
      rewrite get_insert_eq.
      destruct (decide (strategy = 0)); [contradiction|].
      rewrite Hanswer.
      destruct (decide (v < uint24_modulus)); [reflexivity|contradiction].
    + intros env' key params Hattached Hfails.
      unfold getEffectiveFee. rewrite resolveFee_spec. cbn.
      rewrite get_insert_eq.
      destruct (decide (_ \/ _)) as [[Hz|Hcompletes]|_];
        [contradiction|congruence|reflexivity].
    + intros env' key params Hremoved.
      unfold getEffectiveFee. rewrite resolveFee_eq. cbn.
      rewrite get_insert_eq.
      destruct (decide (strategy = 0)); [reflexivity|contradiction].
  - split; [split; [discriminate|contradiction]|].
    split; [reflexivity|discriminate].
Qed.

(** X7 (a fixed-fee strategy). With a [FixedFeeStrategy] of fee [f], a
    [uint24], attached to a pool, the effective fee is [f] cut to
    [MAX_FEE] for every swap, whatever the override; in particular a
    fixed fee of 0 makes the effective fee 0: a strategy's 0 is an answer,
    it does not fall through to the override or the default. *)
Theorem X7_fixed_fee_strategy (env : Env) (s : State) (poolId : PoolId)
    (f : uint24)
    (Hattached : get (poolStrategy s) poolId <> 0)
    (Hword : is_uint24 f)
    (Hfixed : forall hook gas p k q,
        getFee env hook (get (poolStrategy s) poolId) gas p k q =
        FixedFeeStrategy_getFee f p k q) :
  forall key params,
    getEffectiveFee env s poolId key params = Ok (N.min f MAX_FEE) /\
    (f = 0 -> getEffectiveFee env s poolId key params = Ok 0).
Proof.
  intros key params. unfold getEffectiveFee. rewrite resolveFee_eq.
  cbn zeta. destruct (decide (_ = 0)); [contradiction|].
  rewrite Hfixed. cbn.
  destruct (decide (f < uint24_modulus)); [|contradiction].
  split; [reflexivity|]. intros ->. reflexivity.
Qed.

(** X8 (accepting cannot be replayed). With no transfer pending,
    [acceptPoolAdmin] reverts with [NoPendingAdmin] for every caller, the
    admin included; and once an acceptance has gone through, every
    further [acceptPoolAdmin] reverts with [NoPendingAdmin]. *)
Theorem X8_accept_once (env : Env) (s s' : State) (poolId : PoolId)
    (Hdone : transact toId isDynamicFee env (AcceptPoolAdmin poolId) s =
             (s', None)) :
  get (poolAdmin s') poolId = msg_sender env /\
  msg_sender env <> 0 /\
  (forall env',
     transact toId isDynamicFee env' (AcceptPoolAdmin poolId) s' =
       (s', Some (NoPendingAdmin poolId))) /\
  (forall env' s0,
     get (pendingPoolAdmin s0) poolId = 0 ->
     transact toId isDynamicFee env' (AcceptPoolAdmin poolId) s0 =
       (s0, Some (NoPendingAdmin poolId))).
Proof.
  revert Hdone. unfold transact at 1, dispatch. rewrite acceptPoolAdmin_eq.
  cbn zeta. repeat (case_decide; try discriminate). intros [= <-].
  cbn. rewrite !get_insert_eq. repeat split; try congruence.
  - intros env'. unfold transact, dispatch. rewrite acceptPoolAdmin_eq.
    cbn. rewrite !get_insert_eq. case_decide; [reflexivity|contradiction].
  - intros env' s0 Hnone. unfold transact, dispatch.
    rewrite acceptPoolAdmin_eq. cbn zeta. rewrite Hnone.
    case_decide; [reflexivity|contradiction].
Qed.

(** X9 (a new proposal withdraws the old one). When the admin proposes
    [B] and then [C], only [C] can accept: [B]'s acceptance reverts with
    [NotPendingAdmin], [C]'s makes [C] the admin. *)
Theorem X9_reproposal_replaces (env1 env2 : Env) (s s1 s2 : State)
    (poolId : PoolId) (B C : address)
    (Hfirst : transact toId isDynamicFee env1 (TransferPoolAdmin poolId B) s =
              (s1, None))
    (Hsecond : transact toId isDynamicFee env2 (TransferPoolAdmin poolId C) s1 =
               (s2, None))
    (Hdistinct : B <> C) :
  get (pendingPoolAdmin s2) poolId = C /\
  (forall env', msg_sender env' = B ->
     transact toId isDynamicFee env' (AcceptPoolAdmin poolId) s2 =
       (s2, Some (NotPendingAdmin B))) /\
  (forall env', msg_sender env' = C ->
     exists s3,
       transact toId isDynamicFee env' (AcceptPoolAdmin poolId) s2 =
         (s3, None) /\
       get (poolAdmin s3) poolId = C).
Proof.
  clear Hfirst. revert Hsecond.
  unfold transact at 1, dispatch. rewrite transferPoolAdmin_eq.
  repeat (case_decide; try discriminate). intros [= <-].
  cbn. rewrite !get_insert_eq. repeat split.
  - intros env' HB. unfold transact, dispatch. rewrite acceptPoolAdmin_eq.
    cbn. rewrite !get_insert_eq, HB.
    case_decide; [contradiction|]. case_decide; [contradiction|reflexivity].
  - intros env' HC. unfold transact, dispatch. rewrite acceptPoolAdmin_eq.
    cbn. rewrite !get_insert_eq, HC.
    case_decide; [contradiction|]. case_decide; [|contradiction].
    eexists; split; [reflexivity|]. cbn. rewrite !get_insert_eq. done.
Qed.

(** X10 (a proposal alone transfers nothing). After the admin [A] has
    proposed [B], [A] is still the admin and passes the admin check of
    every admin-only entry point, while [B], if it is not [A], is turned
    down by each of them with [Unauthorized] until it accepts. *)
Theorem X10_proposal_keeps_admin (env : Env) (s s1 : State)
    (poolId : PoolId) (B : address)
    (Hproposed : transact toId isDynamicFee env (TransferPoolAdmin poolId B) s =
                 (s1, None)) :
  let A := msg_sender env in
  get (poolAdmin s1) poolId = A /\
  get (poolAdmin s1) poolId = get (poolAdmin s) poolId /\
  (forall envA strategy,
     msg_sender envA = A ->
     snd (transact toId isDynamicFee envA
            (SetPoolStrategy poolId strategy) s1) = None) /\
  (B <> A ->
   forall envB c,
     msg_sender envB = B -> admin_only c = true -> target toId c = poolId ->
     transact toId isDynamicFee envB c s1 = (s1, Some (Unauthorized B))).
Proof.
  cbn zeta. revert Hproposed.
  unfold transact at 1, dispatch. rewrite transferPoolAdmin_eq.
  repeat (case_decide; try discriminate). intros [= <-].
  cbn. repeat split; try congruence.
  - intros envA strategy HA. unfold transact, dispatch.
    rewrite setPoolStrategy_eq. cbn.
    case_decide; [reflexivity|congruence].
  - intros Hdistinct envB c HB Honly Htarget.
    destruct c as [| p strategy | p queued | | p proposed | | |];
      try discriminate Honly; cbn in Htarget; subst p;
      unfold transact, dispatch;
      rewrite ?setPoolStrategy_eq, ?setPoolFee_eq, ?transferPoolAdmin_eq;
      cbn; rewrite HB;
      (case_decide; [congruence|reflexivity]).
Qed.

(** X12 (one event per call). A call that goes through appends exactly
    one event to the log, and that event is about the pool the call
    operates on; a call that reverts leaves the log as it was. *)
Theorem X12_one_event_per_call (env : Env) (c : Call) (s : State) :
  let outcome := transact toId isDynamicFee env c s in
  (snd outcome = None ->
   exists ev,
     events (fst outcome) = events s ++ [ev] /\
     event_pool ev = target toId c) /\
  (snd outcome <> None -> events (fst outcome) = events s).
Proof.
  cbn zeta.
  cases_of_transact c; split; intros Hout;
    first [ discriminate Hout | reflexivity | contradiction
          | eexists; split; reflexivity ].
Qed.

(** X13 (only a ready finalize changes the override). If a call changes
    the fee override of a pool, the call is [finalizePoolFee] on that
    pool, a change was queued and its ready block has been reached, and
    the new override is the fee that was queued. *)
Theorem X13_override_changes_only_by_finalize (env : Env) (c : Call)
    (s : State) (p : PoolId)
    (Hchanged :
       get (poolFeeOverride (fst (transact toId isDynamicFee env c s))) p <>
       get (poolFeeOverride s) p) :
  c = FinalizePoolFee p /\
  get (feeReadyBlock s) p <> 0 /\
  get (feeReadyBlock s) p <= block_number env /\
  get (poolFeeOverride (fst (transact toId isDynamicFee env c s))) p =
    get (pendingFee s) p.
Proof.
  revert Hchanged.
  cases_of_transact c; intros Hchanged;
    try (exfalso; apply Hchanged; reflexivity).
  rewrite get_insert in *. case_decide; [subst|contradiction].
  repeat split; lia.
Qed.

Lemma within_forecast_transact (o0 f0 r0 b0 : N) (env : Env) (c : Call)
    (s : State) (p : PoolId) :
  b0 <= block_number env < b0 + TIMELOCK_BLOCKS ->
  within_forecast o0 f0 r0 b0 s p ->
  within_forecast o0 f0 r0 b0 (fst (transact toId isDynamicFee env c s)) p.
Proof.
  intros Hwindow Hinv. unfold within_forecast in *.
  cases_of_transact c; try assumption;
    rewrite ?get_insert; repeat case_decide; subst; try assumption;
    unfold TIMELOCK_BLOCKS in *;
    destruct Hinv as [(Ho & Hf & Hr)|[(Ho & Hr)|(Hq & Ho & Hr)]];
    first [ exfalso; lia
          | left; repeat split; first [assumption | lia]
          | right; left; repeat split; first [assumption | lia]
          | right; right; repeat split;
            first [assumption | congruence | lia | left; lia | right; lia] ].
Qed.

(** X14 (the override can be forecast). Take the storage at some block
    [b0] and any transactions, by anyone, at blocks from [b0] up to but
    not including [b0 + TIMELOCK_BLOCKS]. Afterwards the pool's override is
    either what it was, or the fee that was already queued at [b0]; no
    fee queued after [b0] can be in force yet. *)
Theorem X14_override_forecast (txs : list (Env * Call)) (s0 : State)
    (p : PoolId) (b0 : uint256)
    (Hwindow : Forall (fun tx : Env * Call =>
                         b0 <= block_number (fst tx) < b0 + TIMELOCK_BLOCKS)
                 txs) :
  let s1 := run toId isDynamicFee txs s0 in
  get (poolFeeOverride s1) p = get (poolFeeOverride s0) p \/
  (get (feeReadyBlock s0) p <> 0 /\
   get (poolFeeOverride s1) p = get (pendingFee s0) p).
Proof.
  cbn zeta.
  assert (Hrun : forall s,
             within_forecast (get (poolFeeOverride s0) p)
               (get (pendingFee s0) p) (get (feeReadyBlock s0) p) b0 s p ->
             within_forecast (get (poolFeeOverride s0) p)
               (get (pendingFee s0) p) (get (feeReadyBlock s0) p) b0
               (run toId isDynamicFee txs s) p).
  { induction Hwindow as [|[env c] rest Hhead _ IH]; intros s Hinv; cbn.
    - assumption.
    - apply IH, within_forecast_transact; assumption. }
  destruct (Hrun s0) as [(Ho & _)|[(Ho & _)|(Hq & Ho & _)]].
  - left. repeat split.
  - left. assumption.
  - left. assumption.
  - right. split; assumption.
Qed.

(** X15 (the admin changes only by registration or acceptance). If a call
    changes the admin of a pool, then either it registers the pool, which
    had no admin, and the new admin is the initiator, or it is
    [acceptPoolAdmin] called by the pending admin, who is the new admin. *)
Theorem X15_admin_changes_only_by_design (env : Env) (c : Call) (s : State)
    (p : PoolId)
    (Hchanged :
       get (poolAdmin (fst (transact toId isDynamicFee env c s))) p <>
       get (poolAdmin s) p) :
  let admin' := get (poolAdmin (fst (transact toId isDynamicFee env c s))) p in
  (exists initiator key sqrtPriceX96 tick,
     c = AfterInitialize initiator key sqrtPriceX96 tick /\
     toId key = p /\ get (poolAdmin s) p = 0 /\ admin' = initiator) \/
  (c = AcceptPoolAdmin p /\
   msg_sender env = get (pendingPoolAdmin s) p /\
   admin' = msg_sender env).
Proof.
  cbn zeta. revert Hchanged.
  cases_of_transact c; intros Hchanged;
    try (exfalso; apply Hchanged; reflexivity);
    rewrite get_insert in *; (case_decide; [subst|contradiction]).
  - left. do 4 eexists. repeat split; assumption.
  - right. repeat split; congruence.
Qed.

(** A pre-swap call goes through exactly when the amount is not the least
    [int256] and the fee resolution returns. *)
Lemma beforeSwap_through_iff (env : Env) (sender : address) (key : PoolKey)
    (params : SwapParams) (hookData : bytes) (s : State) :
  (exists r s', _beforeSwap toId env sender key params hookData s =
                Ok (r, s')) <->
  amountSpecified params <> int256_min /\
  exists f, _resolveFee env s (toId key) key params = Ok f.
Proof.
  rewrite beforeSwap_eq. cbn zeta.
  destruct (_resolveFee env s (toId key) key params) as [f|e].
  - destruct (decide (amountSpecified params = int256_min)) as [Hmin|Hnot].
    + split; [intros (r & s' & Hrun); discriminate Hrun|].
      intros [Hnot _]. contradiction.
    + split; [intros _; split; [exact Hnot|exists f; reflexivity]|].
      intros _. do 2 eexists. reflexivity.
  - split; [intros (r & s' & Hrun); discriminate Hrun|].
    intros (_ & f & Hfee). discriminate Hfee.
Qed.

Lemma swapCount_transact (env : Env) (c : Call) (s : State) (p : PoolId) :
  get (swapCount s) p <= uint256_max ->
  get (swapCount (fst (transact toId isDynamicFee env c s))) p =
  (get (swapCount s) p +
   (if is_swap_on toId p c &&
       went_through (transact toId isDynamicFee env c s)
    then 1 else 0)) mod 2 ^ 256.
Proof.
  intros Hrange.
  assert (Hsame : get (swapCount s) p =
                  (get (swapCount s) p + 0) mod 2 ^ 256).
  { rewrite N.add_0_r, N.mod_small; [reflexivity|].
    unfold uint256_max in Hrange. lia. }
  cases_of_transact c; unfold went_through; cbn;
    rewrite ?andb_false_r, ?andb_true_r; try exact Hsame.
  rewrite get_insert.
  destruct (N.eqb_spec (toId key) p) as [->|Hother];
    case_decide; try contradiction.
  - reflexivity.
  - exact Hsame.
Qed.

(** X16 (the swap count counts the swaps that go through). After any list
    of transactions, a pool's swap count is what it was plus the number of
    pre-swap calls on that pool that went through, modulo [2^256]: nothing
    else moves it, and no swap that goes through is missed. A pre-swap
    call goes through exactly when its amount is not [type(int256).min]
    and the fee resolution returns. *)
Theorem X16_swapCount_counts (txs : list (Env * Call)) (s : State)
    (p : PoolId)
    (Hrange : get (swapCount s) p <= uint256_max) :
  get (swapCount (run toId isDynamicFee txs s)) p =
    (get (swapCount s) p + swaps_through toId isDynamicFee p txs s)
      mod 2 ^ 256 /\
  (forall env sender key params hookData s0,
     went_through
       (transact toId isDynamicFee env
          (BeforeSwap sender key params hookData) s0) = true <->
     amountSpecified params <> int256_min /\
     exists f, _resolveFee env s0 (toId key) key params = Ok f).
Proof.
  split.
  - revert s Hrange.
    induction txs as [|[env c] rest IH]; intros s Hrange; cbn.
    + rewrite N.add_0_r, N.mod_small; [reflexivity|].
      unfold uint256_max in Hrange. lia.
    + rewrite IH, swapCount_transact by
        (try assumption; rewrite swapCount_transact by assumption;
         pose proof (N.mod_upper_bound
                       (get (swapCount s) p +
                        (if is_swap_on toId p c &&
                            went_through (transact toId isDynamicFee env c s)
                         then 1 else 0)) (2 ^ 256));
         unfold uint256_max; lia).
      rewrite N.Div0.add_mod_idemp_l. f_equal. lia.
  - intros env sender key params hookData s0.
    rewrite <- (beforeSwap_through_iff env sender key params hookData s0).
    unfold went_through, transact, dispatch. rewrite then_ret_tt.
    destruct (_beforeSwap toId env sender key params hookData s0)
      as [[r s']|e]; cbn.
    + split; [intros _; exists r, s'; reflexivity|reflexivity].
    + split; [discriminate|]. intros (r & s' & Hrun). discriminate Hrun.
Qed.

Lemma totalVolume_transact (env : Env) (c : Call) (s : State) (p : PoolId) :
  get (totalVolume s) p <= uint256_max ->
  get (totalVolume (fst (transact toId isDynamicFee env c s))) p =
  (get (totalVolume s) p + call_volume toId p c) mod 2 ^ 256.
Proof.
  intros Hrange.
  assert (Hsame : get (totalVolume s) p =
                  (get (totalVolume s) p + 0) mod 2 ^ 256).
  { rewrite N.add_0_r, N.mod_small; [reflexivity|].
    unfold uint256_max in Hrange. lia. }
  cases_of_transact c; try exact Hsame.
  rewrite get_insert.
  destruct (N.eqb_spec (toId key) p) as [->|Hother];
    case_decide; try contradiction.
  - reflexivity.
  - exact Hsame.
Qed.

(** X17 (the total volume adds up the swaps). After any list of
    transactions, a pool's total volume is what it was plus the
    [volumeIn] of every post-swap call made on that pool, modulo
    [2^256]. *)
Theorem X17_totalVolume_adds_up (txs : list (Env * Call)) (s : State)
    (p : PoolId)
    (Hrange : get (totalVolume s) p <= uint256_max) :
  get (totalVolume (run toId isDynamicFee txs s)) p =
  (get (totalVolume s) p + sum_volume toId p txs) mod 2 ^ 256.
Proof.
  revert s Hrange. induction txs as [|[env c] rest IH]; intros s Hrange; cbn.
  - rewrite N.add_0_r, N.mod_small; [reflexivity|].
    unfold uint256_max in Hrange. lia.
  - rewrite IH, totalVolume_transact by
      (try assumption; rewrite totalVolume_transact by assumption;
       pose proof (N.mod_upper_bound
                     (get (totalVolume s) p + call_volume toId p c)
                     (2 ^ 256));
       unfold uint256_max; lia).
    rewrite N.Div0.add_mod_idemp_l. f_equal. lia.
Qed.

(** X18 (what cannot move the fee). Registration, queueing a fee,
    proposing and accepting an admin, and the two swap hooks leave the
    strategy and the override of every pool as they were, and with them
    the effective fee of every pool that has no strategy or whose
    strategy treats the call in the new storage as in the old one: a
    strategy that reads the hook's storage apart, only [setPoolStrategy]
    and [finalizePoolFee] can change the fee. *)
Theorem X18_fee_moved_only_by_strategy_or_finalize (env : Env) (c : Call)
    (s : State) (Hquiet : moves_fee c = false) :
  let s' := fst (transact toId isDynamicFee env c s) in
  forall p,
    get (poolStrategy s') p = get (poolStrategy s) p /\
    get (poolFeeOverride s') p = get (poolFeeOverride s) p /\
    forall env' key params,
      get (poolStrategy s) p = 0 \/
      getFee env' s' (get (poolStrategy s) p) STRATEGY_GAS p key params =
      getFee env' s (get (poolStrategy s) p) STRATEGY_GAS p key params ->
      getEffectiveFee env' s' p key params =
      getEffectiveFee env' s p key params.
Proof.
  cbn zeta. intros p.
  assert (Hstrategy :
            get (poolStrategy (fst (transact toId isDynamicFee env c s))) p =
            get (poolStrategy s) p).
  { revert Hquiet.
    cases_of_transact c; intros Hquiet; first [reflexivity | discriminate]. }
  assert (Hoverride :
            get (poolFeeOverride (fst (transact toId isDynamicFee env c s)))
              p =
            get (poolFeeOverride s) p).
  { revert Hquiet.
    cases_of_transact c; intros Hquiet; first [reflexivity | discriminate]. }
  split; [exact Hstrategy|]. split; [exact Hoverride|].
  intros env' key params Hsame.
  unfold getEffectiveFee. rewrite !resolveFee_eq. cbn zeta.
  rewrite Hstrategy, Hoverride.
  destruct (decide (get (poolStrategy s) p = 0)) as [Hnone|Hsome];
    [reflexivity|].
  destruct Hsame as [Hnone|Hsame]; [contradiction|].
  rewrite Hsame. reflexivity.
Qed.

(** X19 (what the swap event carries). For an [amountSpecified] within
    [int256], the pre-swap hook returns exactly when the amount is not the
    minimum and the fee resolution returns, and whenever it returns it has
    logged [SwapProcessed] with the absolute value of the amount and the
    swap count it has just written. *)
Theorem X19_swap_event (env : Env) (sender : address) (key : PoolKey)
    (params : SwapParams) (hookData : bytes) (s : State)
    (Hrange : is_int256 (amountSpecified params)) :
  ((exists r s',
      _beforeSwap toId env sender key params hookData s = Ok (r, s')) <->
   amountSpecified params <> int256_min /\
   exists f, _getFee toId env s sender key params hookData = Ok f) /\
  (forall r s',
     _beforeSwap toId env sender key params hookData s = Ok (r, s') ->
     events s' =
       events s ++
       [SwapProcessed (toId key) (Z.to_N (Z.abs (amountSpecified params)))
          (get (swapCount s') (toId key))]).
Proof.
  split; [apply beforeSwap_through_iff|].
  intros r s'. rewrite beforeSwap_eq. cbn zeta.
  destruct (_resolveFee env s (toId key) key params); [|discriminate].
  case_decide as Hnotmin; [discriminate|]. intros [= <- <-].
  cbn. rewrite get_insert_eq.
  do 3 f_equal. unfold uint256_of_int256. f_equal.
  apply Z.mod_small. destruct Hrange as [Hlo Hhi].
  unfold int256_min, int256_max, uint256_modulus in *. cbn. lia.
Qed.

Lemma unconfigured_transact (env : Env) (c : Call) (s : State) (p : PoolId) :
  msg_sender env <> 0 ->
  get (poolAdmin s) p = 0 ->
  unconfigured s p ->
  unconfigured (fst (transact toId isDynamicFee env c s)) p.
Proof.
  intros Hsender Hnoadmin Hpristine. unfold unconfigured in *.
  destruct Hpristine as (Hpending & Hstrategy & Hover & Hqueued & Hready).
  cases_of_transact c; try (repeat split; assumption);
    rewrite ?get_insert; repeat case_decide; subst;
    try (repeat split; assumption);
    exfalso; first [congruence | tauto].
Qed.

Lemma unconfigured_run (txs : list (Env * Call)) (s : State) (p : PoolId) :
  Forall (fun tx : Env * Call => msg_sender (fst tx) <> 0) txs ->
  get (poolAdmin s) p = 0 ->
  unconfigured s p ->
  get (poolAdmin (run toId isDynamicFee txs s)) p = 0 ->
  unconfigured (run toId isDynamicFee txs s) p.
Proof.
  intros Hsenders. revert s.
  induction Hsenders as [|[env c] rest Hhead _ IH];
    intros s Hnoadmin Hpristine Hstill; cbn in *.
  - assumption.
  - destruct (decide (get (poolAdmin
                             (fst (transact toId isDynamicFee env c s))) p = 0))
      as [Hkept|Hgot].
    + apply IH; [assumption| |assumption].
      apply unconfigured_transact; assumption.
    + exfalso. apply (admin_kept_run toId isDynamicFee rest _ p Hgot Hstill).
Qed.

(** X11 (no configuration before registration). Starting from the
    deployed contract, as long as no call comes from the zero address, a
    pool that still has no admin has no pending admin, no strategy, no
    override and nothing queued, and its effective fee is [DEFAULT_FEE]:
    the admin-only entry points turn everybody down until the pool is
    registered. *)
Theorem X11_unregistered_pool_unconfigured (txs : list (Env * Call))
    (p : PoolId)
    (Hsenders : Forall (fun tx : Env * Call => msg_sender (fst tx) <> 0) txs) :
  let s := run toId isDynamicFee txs initial_state in
  get (poolAdmin s) p = 0 ->
  unconfigured s p /\
  forall env key params, getEffectiveFee env s p key params = Ok DEFAULT_FEE.
Proof.
  cbn zeta. intros Hnoadmin.
  assert (Hpristine : unconfigured
                        (run toId isDynamicFee txs initial_state) p).
  { apply unconfigured_run; try assumption.
    - cbn. apply get_empty.
    - unfold unconfigured. cbn. rewrite !get_empty. repeat split. }
  split; [assumption|].
  intros env key params. destruct Hpristine as (_ & Hstrategy & Hover & _).
  unfold getEffectiveFee. rewrite resolveFee_eq. cbn zeta.
  rewrite Hstrategy, Hover. reflexivity.
Qed.

End Further.

(** ** Properties of the resolver *)

Section ResolverProperties.

Import Resolver.

Lemma bytes_of_string_app (a b : string) :
  bytes_of_string (String.append a b) = bytes_of_string a ++ bytes_of_string b.
Proof.
  unfold bytes_of_string. induction a as [|c a IH].
  - reflexivity.
  - change (String.append (String c a) b) with (String c (String.append a b)).
    cbn. f_equal. exact IH.
Qed.

Lemma bytes_of_string_inj (a b : string) :
  bytes_of_string a = bytes_of_string b -> a = b.
Proof.
  unfold bytes_of_string. revert b.
  induction a as [|c a IH]; intros [|d b] Heq; cbn in Heq;
    try discriminate; [reflexivity|].
  injection Heq as Hhead Htail.
  f_equal; [|apply IH, Htail].
  rewrite <- (Ascii.ascii_N_embedding c), <- (Ascii.ascii_N_embedding d).
  f_equal. exact Hhead.
Qed.

(** Every list of bytes below 256 is the image of a string. *)
Lemma bytes_of_string_tail (a : string) (front back : bytes) :
  bytes_of_string a = front ++ back ->
  exists rest, back = bytes_of_string rest.
Proof.
  revert a. induction front as [|x front IH]; intros a Heq; cbn in Heq.
  - exists a. symmetry. exact Heq.
  - destruct a as [|c a]; [discriminate Heq|].
    unfold bytes_of_string in Heq. cbn in Heq. injection Heq as _ Htail.
    apply (IH a). exact Htail.
Qed.

Lemma isPayAgentKey_loop_spec (keyBytes prefix : bytes) (remaining i : nat) :
  (i + remaining = length prefix)%nat ->
  (length prefix <= length keyBytes)%nat ->
  isPayAgentKey_loop keyBytes prefix i remaining =
  Returns (bool_decide (take remaining (drop i keyBytes) = drop i prefix)).
Proof.
  revert i. induction remaining as [|n IH]; intros i Hend Hlong; cbn.
  - rewrite (drop_ge prefix) by lia.
    rewrite bool_decide_eq_true_2 by reflexivity. reflexivity.
  - destruct (lookup_lt_is_Some_2 keyBytes i) as [k Hk]; [lia|].
    destruct (lookup_lt_is_Some_2 prefix i) as [q Hq]; [lia|].
    unfold byte_at. rewrite Hk, Hq.
    rewrite (drop_S _ _ _ Hk), (drop_S _ _ _ Hq). cbn.
    destruct (N.eqb_spec k q) as [->|Hdiff]; cbn.
    + rewrite IH by lia. f_equal.
      apply bool_decide_ext. split; [intros ->; reflexivity|].
      intros [= Htail]. exact Htail.
    + f_equal. symmetry. apply bool_decide_eq_false.
      intros [= Hhead _]. contradiction.
Qed.

(** At the level of bytes: the answer is whether the key's first bytes
    are those of the prefix. *)
Lemma isPayAgentKey_bytes (key : string) :
  _isPayAgentKey key =
  Returns (bool_decide
             (take (length (bytes_of_string PAYAGENT_PREFIX))
                (bytes_of_string key) = bytes_of_string PAYAGENT_PREFIX)).
Proof.
  unfold _isPayAgentKey. cbn zeta.
  set (keyBytes := bytes_of_string key).
  set (prefix := bytes_of_string PAYAGENT_PREFIX).
  destruct (Nat.ltb_spec (length keyBytes) (length prefix)) as [Hshort|Hlong].
  - f_equal. symmetry. apply bool_decide_eq_false. intros Htake.
    apply (f_equal length) in Htake. rewrite length_take in Htake. lia.
  - rewrite isPayAgentKey_loop_spec by (first [exact Hlong | lia]).
    rewrite !drop_0. reflexivity.
Qed.

(** A key's first bytes are those of a prefix exactly when the key is the
    prefix followed by some string. *)
Lemma starts_with_bytes (prefix key : string) :
  take (length (bytes_of_string prefix)) (bytes_of_string key) =
    bytes_of_string prefix <->
  exists rest, key = String.append prefix rest.
Proof.
  split.
  - intros Htake.
    destruct (bytes_of_string_tail key
                (take (length (bytes_of_string prefix)) (bytes_of_string key))
                (drop (length (bytes_of_string prefix)) (bytes_of_string key)))
      as [rest Hrest].
    { symmetry. apply take_drop. }
    exists rest. apply bytes_of_string_inj.
    rewrite bytes_of_string_app, <- Hrest.
    transitivity (take (length (bytes_of_string prefix)) (bytes_of_string key)
                  ++ drop (length (bytes_of_string prefix))
                       (bytes_of_string key)).
    + symmetry. apply take_drop.
    + rewrite Htake. reflexivity.
  - intros [rest ->]. rewrite bytes_of_string_app. apply take_app_length.
Qed.

(** X20 (the key filter). [_isPayAgentKey] returns on every key, without
    ever reading past the end of the key, and it answers [true] exactly
    for the keys that begin with ["com.payagent."]; the prefix itself is
    such a key. *)
Theorem X20_isPayAgentKey_prefix (key : string) :
  exists answer,
    _isPayAgentKey key = Returns answer /\
    (answer = true <->
     exists rest, key = String.append PAYAGENT_PREFIX rest).
Proof.
  rewrite isPayAgentKey_bytes. eexists. split; [reflexivity|].
  rewrite bool_decide_eq_true. apply starts_with_bytes.
Qed.

Lemma be_bytes_length (width : nat) (n : N) :
  length (be_bytes width n) = width.
Proof.
  revert n. induction width as [|w IH]; intros n; cbn.
  - reflexivity.
  - rewrite length_app, IH. cbn. lia.
Qed.

Lemma be_bytes_inj (width : nat) (n m : N) :
  n < 256 ^ N.of_nat width -> m < 256 ^ N.of_nat width ->
  be_bytes width n = be_bytes width m -> n = m.
Proof.
  revert n m. induction width as [|w IH]; intros n m Hn Hm Heq.
  - cbn in Hn, Hm. lia.
  - cbn [be_bytes] in Heq. apply app_inj_tail in Heq as [Hhigh Hlow].
    rewrite Nat2N.inj_succ, N.pow_succ_r' in Hn, Hm.
    assert (Hdiv : n / 256 = m / 256).
    { apply IH; [| |exact Hhigh];
        apply N.Div0.div_lt_upper_bound; assumption. }
    rewrite (N.Div0.div_mod n 256), (N.Div0.div_mod m 256), Hdiv, Hlow.
    reflexivity.
Qed.

(** X23 (the signed message is unambiguous). The packed message that the
    gateway signs is 94 bytes long and determines each of its fields:
    two messages built from resolver addresses below [2^160], expiry
    times below [2^64] and hashes below [2^256] are equal only if the
    addresses, the expiry times and both hashes are. *)
Theorem X23_packed_message_injective (this this' expires expires' : N)
    (extraDataHash extraDataHash' resultHash resultHash' : N)
    (Hthis : this < 2 ^ 160) (Hthis' : this' < 2 ^ 160)
    (Hexpires : expires < 2 ^ 64) (Hexpires' : expires' < 2 ^ 64)
    (Hextra : extraDataHash < 2 ^ 256) (Hextra' : extraDataHash' < 2 ^ 256)
    (Hresult : resultHash < 2 ^ 256) (Hresult' : resultHash' < 2 ^ 256) :
  length (packed_message this expires extraDataHash resultHash) = 94%nat /\
  (packed_message this expires extraDataHash resultHash =
   packed_message this' expires' extraDataHash' resultHash' ->
   this = this' /\ expires = expires' /\
   extraDataHash = extraDataHash' /\ resultHash = resultHash').
Proof.
  unfold packed_message. split.
  - rewrite !length_app, !be_bytes_length. reflexivity.
  - intros Heq. apply (app_inv_head [25; 0]) in Heq.
    apply app_inj_1 in Heq as [Haddr Heq];
      [|rewrite !be_bytes_length; reflexivity].
    apply app_inj_1 in Heq as [Htime Heq];
      [|rewrite !be_bytes_length; reflexivity].
    apply app_inj_1 in Heq as [Hfirst Hsecond];
      [|rewrite !be_bytes_length; reflexivity].
    repeat split; eapply be_bytes_inj; try eassumption;
      first [ exact Hthis | exact Hthis' | exact Hexpires | exact Hexpires'
            | exact Hextra | exact Hextra' | exact Hresult | exact Hresult' ].
Qed.

Section ResolverContract.

Variable this : address.
Variable signer : address.
Variable gatewayUrl : string.
Variable abi_decode_text : bytes -> option (N * string).
Variable abi_encode : bytes -> bytes -> bytes.
Variable abi_decode_response : bytes -> option (bytes * N * bytes).
Variable keccak256 : bytes -> N.
Variable ecdsa_recover : N -> bytes -> option address.
Variable resolveWithProof_selector : bytes.

(** X21 (resolve only ever redirects). [resolve] never returns a value:
    every call reverts. It reverts with [OffchainLookup] exactly when the
    call data is at least four bytes long, starts with the selector of
    [text(bytes32,string)], decodes, and asks for a key that begins with
    ["com.payagent."]; the lookup then names this contract, the one
    gateway URL, and the encoded name and call data both as the call data
    for the gateway and as the extra data handed back to
    [resolveWithProof]. *)
Theorem X21_resolve_redirects (name data : bytes) :
  let lookup :=
    OffchainLookup this [gatewayUrl] (abi_encode name data)
      resolveWithProof_selector (abi_encode name data) in
  (exists e,
     resolve this gatewayUrl abi_decode_text abi_encode
       resolveWithProof_selector name data = Reverts e) /\
  (resolve this gatewayUrl abi_decode_text abi_encode
     resolveWithProof_selector name data = Reverts lookup <->
   (4 <= length data)%nat /\
   take 4 data = TEXT_SELECTOR /\
   exists node key rest,
     abi_decode_text (drop 4 data) = Some (node, key) /\
     key = String.append PAYAGENT_PREFIX rest) /\
  (forall sender urls callData callbackFunction extraData,
     resolve this gatewayUrl abi_decode_text abi_encode
       resolveWithProof_selector name data =
     Reverts (OffchainLookup sender urls callData callbackFunction extraData) ->
     OffchainLookup sender urls callData callbackFunction extraData = lookup).
Proof.
  cbn zeta. unfold resolve.
  destruct (Nat.ltb_spec (length data) 4) as [Hshort|Hlong].
  { split; [eexists; reflexivity|]. split; [|discriminate].
    split; [discriminate|]. intros [Hlen _]. lia. }
  destruct (decide (take 4 data = TEXT_SELECTOR)) as [Hsel|Hsel].
  2:{ rewrite bool_decide_eq_false_2 by assumption. cbn.
      split; [eexists; reflexivity|]. split; [|discriminate].
      split; [discriminate|]. intros (_ & Hyes & _). contradiction. }
  rewrite bool_decide_eq_true_2 by assumption. cbn.
  destruct (abi_decode_text (drop 4 data)) as [[node key]|].
  2:{ split; [eexists; reflexivity|]. split; [|discriminate].
      split; [discriminate|]. intros (_ & _ & n & k & r & Hdec & _).
      discriminate Hdec. }
  rewrite isPayAgentKey_bytes.
  pose proof (starts_with_bytes PAYAGENT_PREFIX key) as [Hrest Hno].
  destruct (bool_decide _) eqn:Hanswer; cbn;
    [apply bool_decide_eq_true_1 in Hanswer
    |apply bool_decide_eq_false_1 in Hanswer].
  - destruct (Hrest Hanswer) as [rest Hkey].
    split; [eexists; reflexivity|]. split.
    + split; [|reflexivity]. intros _.
      repeat split; try assumption. exists node, key, rest. split; done.
    + intros sender urls callData cb extraData [= <- <- <- <- <-].
      reflexivity.
  - split; [eexists; reflexivity|]. split; [|discriminate].
    split; [discriminate|].
    intros (_ & _ & n & k & r & [= <- <-] & Hkey).
    exfalso. apply Hanswer, Hno. exists r. exact Hkey.
Qed.

(** X22 (what resolveWithProof lets through). [resolveWithProof] returns
    a value exactly when the response decodes, has not expired at the
    current time, and carries a signature from which the ECDSA recovery
    yields the resolver's [signer] for the signed message built from this
    contract's address, the expiry time, the extra data and the result;
    the value returned is then the decoded result, unchanged. A response
    that has expired is turned down with [SignatureExpired] before its
    signature is looked at. *)
Theorem X22_resolveWithProof_accepts (timestamp : N)
    (response extraData : bytes) :
  let signed_hash expires result :=
    keccak256 (eth_signed_message
                 (keccak256 (packed_message this expires
                               (keccak256 extraData) (keccak256 result)))) in
  (forall answer,
     resolveWithProof this signer abi_decode_response keccak256 ecdsa_recover
       timestamp response extraData = Returns answer <->
     exists expires sig,
       abi_decode_response response = Some (answer, expires, sig) /\
       timestamp <= expires /\
       ecdsa_recover (signed_hash expires answer) sig = Some signer) /\
  (forall result expires sig,
     abi_decode_response response = Some (result, expires, sig) ->
     expires < timestamp ->
     resolveWithProof this signer abi_decode_response keccak256 ecdsa_recover
       timestamp response extraData = Reverts SignatureExpired).
Proof.
  cbn zeta. unfold resolveWithProof. split.
  - intros answer.
    destruct (abi_decode_response response) as [[[result expires] sig]|].
    2:{ split; [discriminate|]. intros (e & g & Hdec & _). discriminate Hdec. }
    destruct (N.ltb_spec expires timestamp) as [Hlate|Hintime].
    { split; [discriminate|]. intros (e & g & [= <- <- <-] & Hle & _). lia. }
    destruct (ecdsa_recover _ sig) as [recovered|] eqn:Hrec.
    2:{ split; [discriminate|].
        intros (e & g & [= <- <- <-] & _ & Hsigned).
        discriminate (eq_trans (eq_sym Hrec) Hsigned). }
    destruct (N.eqb_spec recovered signer) as [->|Hother]; cbn.
    + split.
      * intros [= <-]. exists expires, sig. repeat split; assumption.
      * intros (e & g & [= <- <- <-] & _). reflexivity.
    + split; [discriminate|].
      intros (e & g & [= <- <- <-] & _ & Hsigned).
      injection (eq_trans (eq_sym Hrec) Hsigned) as Hsame. contradiction.
  - intros result expires sig -> Hlate.
    destruct (N.ltb_spec expires timestamp); [reflexivity|lia].
Qed.

End ResolverContract.

End ResolverProperties.

(** ** The further properties at concrete pools *)

Section FurtherConcrete.

Import Examples Scenarios Resolver.

Local Ltac by_computation := vm_compute; first [reflexivity | discriminate].

(** The keys of the test suite: the payment keys pass, [avatar] does
    not, and a key one character short of the prefix does not. *)
Lemma isPayAgentKey_examples :
  _isPayAgentKey "com.payagent.token" = Returns true /\
  _isPayAgentKey "com.payagent.chain" = Returns true /\
  _isPayAgentKey "com.payagent." = Returns true /\
  _isPayAgentKey "com.payagent" = Returns false /\
  _isPayAgentKey "com.payagenT.token" = Returns false /\
  _isPayAgentKey "avatar" = Returns false /\
  _isPayAgentKey "" = Returns false.
Proof. repeat split; by_computation. Qed.

Lemma finalized_reachable : reachable toId isDynamicFee finalized.
Proof.
  apply reachable_transact, reachable_transact, reachable_transact,
    reachable_transact, reachable_initial.
Defined.

(** After registration, two queued fees and a finalization, the override
    of the test pool is 500 and the storage is in range. *)
Lemma X1_storage_in_range_witness :
  reachable toId isDynamicFee finalized /\
  get (poolFeeOverride finalized) testPool = 500 /\
  get (poolAdmin finalized) testPool = admin /\
  storage_in_range finalized.
Proof.
  split; [exact finalized_reachable|].
  split; [by_computation|]. split; [by_computation|].
  apply (X1_storage_in_range toId isDynamicFee), finalized_reachable.
Defined.

(** The fee queued second, at block 200, is locked at block 260, though
    the first one's delay ran out at block 250, and is applied at 350. *)
Lemma X3_requeue_replaces_witness :
  transact toId isDynamicFee (at_block admin 100) (SetPoolFee testPool 100)
    registered = (queuedOnce, None) /\
  transact toId isDynamicFee (at_block admin 200) (SetPoolFee testPool 500)
    queuedOnce = (queuedTwice, None) /\
  transact toId isDynamicFee (at_block nonAdmin 260)
    (FinalizePoolFee testPool) queuedTwice =
    (queuedTwice, Some (FeeChangeTimelocked testPool 350)) /\
  exists s3,
    transact toId isDynamicFee (at_block nonAdmin 350)
      (FinalizePoolFee testPool) queuedTwice = (s3, None) /\
    get (poolFeeOverride s3) testPool = 500.
Proof.
  assert (Hfirst : transact toId isDynamicFee (at_block admin 100)
                     (SetPoolFee testPool 100) registered =
                   (queuedOnce, None)) by by_computation.
  assert (Hsecond : transact toId isDynamicFee (at_block admin 200)
                      (SetPoolFee testPool 500) queuedOnce =
                    (queuedTwice, None)) by by_computation.
  repeat (split; [assumption|]).
  destruct (X3_requeue_replaces toId isDynamicFee _ _ _ _ _ _ _ _
              Hfirst Hsecond) as (_ & _ & Hearly & Hlate).
  split.
  - apply (Hearly (at_block nonAdmin 260)). by_computation.
  - apply (Hlate (at_block nonAdmin 350)). by_computation.
Defined.

Lemma X5_finalize_once_witness :
  transact toId isDynamicFee (at_block nonAdmin 350)
    (FinalizePoolFee testPool) queuedTwice = (finalized, None) /\
  getPendingFeeInfo (at_block nonAdmin 999) finalized testPool =
    (0, 0, false) /\
  transact toId isDynamicFee (at_block admin 999)
    (FinalizePoolFee testPool) finalized =
    (finalized, Some (FeeChangeTimelocked testPool 0)).
Proof.
  assert (Hdone : transact toId isDynamicFee (at_block nonAdmin 350)
                    (FinalizePoolFee testPool) queuedTwice =
                  (finalized, None)) by by_computation.
  split; [exact Hdone|].
  pose proof (X5_finalize_once toId isDynamicFee _ _ _ _ Hdone) as Honce.
  split.
  - apply (Honce (at_block nonAdmin 999)).
  - apply (Honce (at_block admin 999)).
Defined.

(** The [FixedFeeStrategy] of 500 of the test suite. *)
Lemma X7_fixed_fee_strategy_witness :
  get (poolStrategy withFixed) testPool <> 0 /\
  is_uint24 500 /\
  getEffectiveFee (at_block poolManager 3) withFixed testPool testKey
    swapOne = Ok 500 /\
  getEffectiveFee (at_block poolManager 3) withFixed testPool testKey
    swapBack = Ok 500.
Proof.
  assert (Hattached : get (poolStrategy withFixed) testPool <> 0)
    by by_computation.
  assert (Hword : is_uint24 500) by by_computation.
  assert (Hfixed : forall hook gas p k q,
             getFee (at_block poolManager 3) hook
               (get (poolStrategy withFixed) testPool) gas p k q =
             FixedFeeStrategy_getFee 500 p k q)
    by (intros; reflexivity).
  repeat (split; [assumption|]).
  pose proof (X7_fixed_fee_strategy (at_block poolManager 3) withFixed
                testPool 500 Hattached Hword Hfixed) as Hfee.
  split.
  - destruct (Hfee testKey swapOne) as [-> _]. by_computation.
  - destruct (Hfee testKey swapBack) as [-> _]. by_computation.
Defined.

Lemma X8_accept_once_witness :
  transact toId isDynamicFee (at_block newAdmin 3) (AcceptPoolAdmin testPool)
    proposedOnce = (accepted, None) /\
  get (poolAdmin accepted) testPool = newAdmin /\
  transact toId isDynamicFee (at_block newAdmin 4) (AcceptPoolAdmin testPool)
    accepted = (accepted, Some (NoPendingAdmin testPool)).
Proof.
  assert (Hdone : transact toId isDynamicFee (at_block newAdmin 3)
                    (AcceptPoolAdmin testPool) proposedOnce =
                  (accepted, None)) by by_computation.
  split; [exact Hdone|].
  destruct (X8_accept_once toId isDynamicFee _ _ _ _ Hdone)
    as (Hadmin & _ & Hreplay & _).
  split; [exact Hadmin|]. apply (Hreplay (at_block newAdmin 4)).
Defined.

Lemma X9_reproposal_replaces_witness :
  transact toId isDynamicFee (at_block admin 2)
    (TransferPoolAdmin testPool newAdmin) registered = (proposedOnce, None) /\
  transact toId isDynamicFee (at_block admin 3)
    (TransferPoolAdmin testPool nonAdmin) proposedOnce =
    (proposedTwice, None) /\
  newAdmin <> nonAdmin /\
  transact toId isDynamicFee (at_block newAdmin 4) (AcceptPoolAdmin testPool)
    proposedTwice = (proposedTwice, Some (NotPendingAdmin newAdmin)) /\
  exists s3,
    transact toId isDynamicFee (at_block nonAdmin 4)
      (AcceptPoolAdmin testPool) proposedTwice = (s3, None) /\
    get (poolAdmin s3) testPool = nonAdmin.
Proof.
  assert (Hfirst : transact toId isDynamicFee (at_block admin 2)
                     (TransferPoolAdmin testPool newAdmin) registered =
                   (proposedOnce, None)) by by_computation.
  assert (Hsecond : transact toId isDynamicFee (at_block admin 3)
                      (TransferPoolAdmin testPool nonAdmin) proposedOnce =
                    (proposedTwice, None)) by by_computation.
  assert (Hdistinct : newAdmin <> nonAdmin) by by_computation.
  repeat (split; [assumption|]).
  destruct (X9_reproposal_replaces toId isDynamicFee _ _ _ _ _ _ _ _
              Hfirst Hsecond Hdistinct) as (_ & Hold & Hnew).
  split.
  - apply (Hold (at_block newAdmin 4)). reflexivity.
  - apply (Hnew (at_block nonAdmin 4)). reflexivity.
Defined.

Lemma X10_proposal_keeps_admin_witness :
  transact toId isDynamicFee (at_block admin 2)
    (TransferPoolAdmin testPool newAdmin) registered = (proposedOnce, None) /\
  get (poolAdmin proposedOnce) testPool = admin /\
  transact toId isDynamicFee (at_block newAdmin 3) (SetPoolFee testPool 100)
    proposedOnce = (proposedOnce, Some (Unauthorized newAdmin)).
Proof.
  assert (Hproposed : transact toId isDynamicFee (at_block admin 2)
                        (TransferPoolAdmin testPool newAdmin) registered =
                      (proposedOnce, None)) by by_computation.
  split; [exact Hproposed|].
  destruct (X10_proposal_keeps_admin toId isDynamicFee _ _ _ _ _ Hproposed)
    as (Hadmin & _ & _ & Hpending).
  split; [exact Hadmin|].
  apply (Hpending ltac:(by_computation) (at_block newAdmin 3)
           (SetPoolFee testPool 100)); reflexivity.
Defined.

(** Nothing the stranger tried on the unregistered pool left a trace. *)
Lemma X11_unregistered_pool_unconfigured_witness :
  Forall (fun tx : Env * Call => msg_sender (fst tx) <> 0) busyDay /\
  get (poolAdmin (run toId isDynamicFee busyDay initial_state)) otherPool = 0 /\
  unconfigured (run toId isDynamicFee busyDay initial_state) otherPool /\
  getEffectiveFee (at_block poolManager 7)
    (run toId isDynamicFee busyDay initial_state) otherPool otherKey swapOne =
    Ok DEFAULT_FEE.
Proof.
  assert (Hsenders : Forall (fun tx : Env * Call => msg_sender (fst tx) <> 0)
                       busyDay)
    by (repeat constructor; by_computation).
  assert (Hnoadmin : get (poolAdmin (run toId isDynamicFee busyDay
                                       initial_state)) otherPool = 0)
    by by_computation.
  repeat (split; [assumption|]).
  destruct (X11_unregistered_pool_unconfigured toId isDynamicFee busyDay
              otherPool Hsenders Hnoadmin) as [Hpristine Hfee].
  split; [exact Hpristine|]. apply Hfee.
Defined.

Lemma X13_override_changes_only_by_finalize_witness :
  let after := fst (transact toId isDynamicFee (at_block nonAdmin 350)
                      (FinalizePoolFee testPool) queuedTwice) in
  get (poolFeeOverride after) testPool <>
    get (poolFeeOverride queuedTwice) testPool /\
  get (feeReadyBlock queuedTwice) testPool <> 0 /\
  get (feeReadyBlock queuedTwice) testPool <= 350 /\
  get (poolFeeOverride after) testPool =
    get (pendingFee queuedTwice) testPool.
Proof.
  cbn zeta.
  assert (Hchanged :
            get (poolFeeOverride
                   (fst (transact toId isDynamicFee (at_block nonAdmin 350)
                           (FinalizePoolFee testPool) queuedTwice))) testPool <>
            get (poolFeeOverride queuedTwice) testPool) by by_computation.
  split; [exact Hchanged|].
  apply (X13_override_changes_only_by_finalize toId isDynamicFee
           (at_block nonAdmin 350) (FinalizePoolFee testPool) queuedTwice
           testPool Hchanged).
Defined.

(** Seen from block 200 with 100 queued for block 250: whatever is done
    before block 350, here a finalize and a new queue of 500, the
    override can only be the old one or 100. *)
Lemma X14_override_forecast_witness :
  Forall (fun tx : Env * Call =>
            200 <= block_number (fst tx) < 200 + TIMELOCK_BLOCKS)
    withinWindow /\
  get (pendingFee queuedOnce) testPool = 100 /\
  get (pendingFee (run toId isDynamicFee withinWindow queuedOnce)) testPool =
    500 /\
  (get (poolFeeOverride (run toId isDynamicFee withinWindow queuedOnce))
     testPool = get (poolFeeOverride queuedOnce) testPool \/
   (get (feeReadyBlock queuedOnce) testPool <> 0 /\
    get (poolFeeOverride (run toId isDynamicFee withinWindow queuedOnce))
      testPool = get (pendingFee queuedOnce) testPool)).
Proof.
  assert (Hwindow : Forall (fun tx : Env * Call =>
                              200 <= block_number (fst tx) <
                              200 + TIMELOCK_BLOCKS) withinWindow)
    by (repeat constructor; by_computation).
  split; [exact Hwindow|]. split; [by_computation|]. split; [by_computation|].
  apply (X14_override_forecast toId isDynamicFee withinWindow queuedOnce
           testPool 200 Hwindow).
Defined.

Lemma X15_admin_changes_only_by_design_witness :
  let after := fst (transact toId isDynamicFee (at_block newAdmin 3)
                      (AcceptPoolAdmin testPool) proposedOnce) in
  get (poolAdmin after) testPool <> get (poolAdmin proposedOnce) testPool /\
  ((exists initiator key sqrtPriceX96 tick,
      AcceptPoolAdmin testPool =
        AfterInitialize initiator key sqrtPriceX96 tick /\
      toId key = testPool /\ get (poolAdmin proposedOnce) testPool = 0 /\
      get (poolAdmin after) testPool = initiator) \/
   (AcceptPoolAdmin testPool = AcceptPoolAdmin testPool /\
    msg_sender (at_block newAdmin 3) =
      get (pendingPoolAdmin proposedOnce) testPool /\
    get (poolAdmin after) testPool = msg_sender (at_block newAdmin 3))).
Proof.
  cbn zeta.
  assert (Hchanged :
            get (poolAdmin
                   (fst (transact toId isDynamicFee (at_block newAdmin 3)
                           (AcceptPoolAdmin testPool) proposedOnce))) testPool <>
            get (poolAdmin proposedOnce) testPool) by by_computation.
  split; [exact Hchanged|].
  apply (X15_admin_changes_only_by_design toId isDynamicFee
           (at_block newAdmin 3) (AcceptPoolAdmin testPool) proposedOnce
           testPool Hchanged).
Defined.

(** Of the four pre-swap calls of the day, two count for the test pool:
    one reverted and one was on the other pool. *)
Lemma X16_swapCount_counts_witness :
  get (swapCount initial_state) testPool <= uint256_max /\
  swaps_through toId isDynamicFee testPool busyDay initial_state = 2 /\
  get (swapCount (run toId isDynamicFee busyDay initial_state)) testPool = 2.
Proof.
  assert (Hrange : get (swapCount initial_state) testPool <= uint256_max)
    by by_computation.
  split; [exact Hrange|]. split; [by_computation|].
  destruct (X16_swapCount_counts toId isDynamicFee busyDay initial_state
              testPool Hrange) as [-> _].
  by_computation.
Defined.

(** A pre-swap call on a pool whose strategy holds no code does not go
    through and is not counted. *)
Lemma blocked_swap_not_counted :
  let attempt := [(at_block poolManager 3,
                   BeforeSwap nonAdmin testKey swapOne [])] in
  swaps_through toId isDynamicFee testPool attempt withCodelessStrategy = 0 /\
  get (swapCount (run toId isDynamicFee attempt withCodelessStrategy))
    testPool = 0 /\
  swaps_through toId isDynamicFee testPool attempt registered = 1 /\
  get (swapCount (run toId isDynamicFee attempt registered)) testPool = 1.
Proof. cbn zeta. repeat split; by_computation. Qed.

(** The two settlements of the day brought in 1 and 2. *)
Lemma X17_totalVolume_adds_up_witness :
  get (totalVolume initial_state) testPool <= uint256_max /\
  sum_volume toId testPool busyDay = 3 /\
  get (totalVolume (run toId isDynamicFee busyDay initial_state)) testPool = 3.
Proof.
  assert (Hrange : get (totalVolume initial_state) testPool <= uint256_max)
    by by_computation.
  split; [exact Hrange|]. split; [by_computation|].
  rewrite (X17_totalVolume_adds_up toId isDynamicFee busyDay initial_state
             testPool Hrange).
  by_computation.
Defined.

(** Queueing a fee on the test pool, which has no strategy, leaves its
    effective fee as it was. *)
Lemma X18_fee_moved_only_by_strategy_or_finalize_witness :
  moves_fee (SetPoolFee testPool 100) = false /\
  get (poolStrategy registered) testPool = 0 /\
  getEffectiveFee (at_block poolManager 101) queuedOnce testPool testKey
    swapOne =
  getEffectiveFee (at_block poolManager 101) registered testPool testKey
    swapOne.
Proof.
  assert (Hnone : get (poolStrategy registered) testPool = 0)
    by by_computation.
  split; [reflexivity|]. split; [exact Hnone|].
  destruct (X18_fee_moved_only_by_strategy_or_finalize toId isDynamicFee
              (at_block admin 100) (SetPoolFee testPool 100) registered
              eq_refl testPool) as (_ & _ & Hfee).
  apply (Hfee (at_block poolManager 101) testKey swapOne). left. exact Hnone.
Defined.

(** With the strategy that charges one unit per swap attached, a swap
    does move the effective fee: it is 0 before the pre-swap call and 1
    after it. *)
Lemma counting_strategy_example :
  let after := fst (transact toId isDynamicFee (at_block poolManager 3)
                      (BeforeSwap nonAdmin testKey swapOne []) withCounting) in
  moves_fee (BeforeSwap nonAdmin testKey swapOne []) = false /\
  getEffectiveFee (at_block poolManager 3) withCounting testPool testKey
    swapOne = Ok 0 /\
  getEffectiveFee (at_block poolManager 3) after testPool testKey swapOne =
    Ok 1.
Proof. cbn zeta. repeat split; by_computation. Qed.

(** A swap of [-5] on the freshly registered pool is logged with the
    amount 5. *)
Lemma X19_swap_event_witness :
  is_int256 (amountSpecified swapBack) /\
  exists r s',
    _beforeSwap toId (at_block poolManager 6) nonAdmin testKey swapBack []
      registered = Ok (r, s') /\
    events s' =
      events registered ++
      [SwapProcessed testPool 5 (get (swapCount s') testPool)].
Proof.
  assert (Hrange : is_int256 (amountSpecified swapBack))
    by (split; by_computation).
  split; [exact Hrange|].
  destruct (X19_swap_event toId (at_block poolManager 6) nonAdmin testKey
              swapBack [] registered Hrange) as [Hreturns Hlogged].
  destruct (proj2 Hreturns) as (r & s' & Hrun).
  { split; [by_computation|]. exists DEFAULT_FEE. by_computation. }
  exists r, s'. split; [exact Hrun|]. apply (Hlogged r s' Hrun).
Defined.

(** Swapping the two hashes gives another message. *)
Lemma X23_packed_message_injective_witness :
  HOOK_ADDRESS < 2 ^ 160 /\ 1700000000 < 2 ^ 64 /\
  3 < 2 ^ 256 /\ 4 < 2 ^ 256 /\
  length (packed_message HOOK_ADDRESS 1700000000 3 4) = 94%nat /\
  packed_message HOOK_ADDRESS 1700000000 3 4 <>
  packed_message HOOK_ADDRESS 1700000000 4 3.
Proof.
  assert (Haddr : HOOK_ADDRESS < 2 ^ 160) by by_computation.
  assert (Htime : 1700000000 < 2 ^ 64) by by_computation.
  assert (H3 : 3 < 2 ^ 256) by by_computation.
  assert (H4 : 4 < 2 ^ 256) by by_computation.
  repeat (split; [assumption|]).
  destruct (X23_packed_message_injective HOOK_ADDRESS HOOK_ADDRESS
              1700000000 1700000000 3 4 4 3 Haddr Haddr Htime Htime
              H3 H4 H4 H3) as [Hlength Hfields].
  split; [exact Hlength|].
  intros Hsame. destruct (Hfields Hsame) as (_ & _ & Hhash & _).
  discriminate Hhash.
Defined.

End FurtherConcrete.
